(** * abfs.data: the dataset facade, its batch planner and its mask synthesis

    A shallow embedding of [abfs/data.py].  Python integers are [Z], image
    identifiers and polygon texts are strings, the annotation table is the
    list of its rows, raised exceptions are the [raise] branch of [PyResult],
    and the attributes a method assigns on [self] are threaded through a
    state-and-error monad over the [Data] record.  The libraries the module
    imports (pandas, GDAL/OGR, matplotlib, PIL, the split and augmentation
    modules of the package) are collaborators: they appear at their interface,
    as the fields of two type classes, and every concrete run instantiates
    them. *)

From Stdlib Require Import ZArith QArith Qround Lia.
From stdpp Require Import base list strings gmap.

Open Scope Z_scope.

(** ** Python values, exceptions and built-ins *)

Module Py.

(** The exceptions that the module's own statements can raise. *)
Inductive PyError : Type :=
| AssertionError            (* a failed [assert] *)
| ZeroDivisionError         (* [/] with a zero divisor *)
| KeyError                  (* [get_group] on an absent group *)
| AttributeError            (* an attribute of [None] *)
| ValueError                (* a NULL geometry, an unpacking of the wrong size,
                               a boolean mask of the wrong length *)
| IndexError                (* an index past the end, too many indices *)
| OSError.                  (* an unreadable file *)

Inductive PyResult (A : Type) : Type :=
| ret (a : A)
| raise (e : PyError).
Arguments ret {A} a.
Arguments raise {A} e.

#[global] Instance PyResult_ret : MRet PyResult := @ret.
#[global] Instance PyResult_bind : MBind PyResult := λ A B k m,
  match m with
  | ret a => k a
  | raise e => raise e
  end.

(** [for x in xs: acc = f(acc, x)], leaving the loop at the first exception. *)
Fixpoint for_each {A S} (f : S → A → PyResult S) (xs : list A) (acc : S)
  : PyResult S :=
  match xs with
  | [] => ret acc
  | x :: xs' => acc' ← f acc x; for_each f xs' acc'
  end.

(** [[f(x) for x in xs]], in order, leaving at the first exception. *)
Fixpoint map_each {A B} (f : A → PyResult B) (xs : list A)
  : PyResult (list B) :=
  match xs with
  | [] => ret []
  | x :: xs' => y ← f x; ys ← map_each f xs'; ret (y :: ys)
  end.

(** [int(b)] for a [bool]. *)
Definition int_of_bool (b : bool) : Z := if b then 1 else 0.

(** [a // b] and [a % b]: floor division, as [Z.div] and [Z.modulo] are. *)
Definition floordiv (a b : Z) : Z := a `div` b.
Definition pymod (a b : Z) : Z := a `mod` b.

(** [a / b] on integers: the true quotient.  The source computes it as a
    binary64 float; below 2^53 rows the rounded quotient and the exact one
    have the same ceiling, and the exact rational is what is kept here. *)
Definition truediv (a b : Z) : PyResult Q :=
  if decide (b = 0) then raise ZeroDivisionError
  else ret (inject_Z a / inject_Z b)%Q.

(** [math.ceil]. *)
Definition ceil (q : Q) : Z := Qceiling q.

(** [range(n)]. *)
Definition range (n : Z) : list Z := Z.of_nat <$> seq 0 (Z.to_nat n).

(** A slice bound brought into [0 .. len], a negative one counted from
    the end. *)
Definition slice_bound (len i : Z) : Z :=
  if decide (i < 0) then Z.max 0 (i + len) else Z.min i len.

(** [xs[start:stop]]: never raises, clips both bounds. *)
Definition slice {A} (xs : list A) (start stop : Z) : list A :=
  let len := Z.of_nat (length xs) in
  let lo := slice_bound len start in
  let hi := slice_bound len stop in
  take (Z.to_nat (hi - lo)) (drop (Z.to_nat lo) xs).

End Py.
Import Py.

(** ** The annotation table (a pandas data frame) *)

(** One polygon record.  [index] is the row label: [pd.read_csv] numbers the
    rows from 0 and every selection keeps the labels, so a label is a natural
    number.  [ImageId] is the identifier text; a missing identifier (NaN) is
    not an image identifier and the type leaves it out. *)
Record Row : Type := mkRow {
  index : N;
  ImageId : string;
  PolygonWKT_Geo : string;
}.

Abbreviation DataFrame := (list Row) (only parsing).

(** [Series.unique()]: the distinct values in order of first appearance,
    with the values already met kept aside as pandas' hash table does. *)
Fixpoint unique_from (seen : list string) (xs : list string) : list string :=
  match xs with
  | [] => []
  | x :: xs' =>
      if decide (x ∈ seen) then unique_from seen xs'
      else x :: unique_from (x :: seen) xs'
  end.

Definition unique (xs : list string) : list string := unique_from [] xs.

(** [df.ImageId.unique()] and [df.ImageId.nunique()]. *)
Definition ImageId_unique (df : DataFrame) : list string := unique (ImageId <$> df).
Definition ImageId_nunique (df : DataFrame) : Z :=
  Z.of_nat (length (ImageId_unique df)).

(** [df[df.ImageId.isin(image_ids)]]. *)
Definition isin_rows (df : DataFrame) (image_ids : list string) : DataFrame :=
  filter (λ r, ImageId r ∈ image_ids) df.

(** [df.groupby('ImageId').get_group(image_id)]: the rows of one image, a
    [KeyError] when there is none. *)
Definition get_group (df : DataFrame) (image_id : string) : PyResult DataFrame :=
  match filter (λ r, ImageId r = image_id) df with
  | [] => raise KeyError
  | rows => ret rows
  end.

(** A filter maps the table to a boolean column, one entry per row. *)
Definition DataFilter : Type := DataFrame → list bool.

(** [df[mask]]: the rows whose entry is [True]; pandas refuses a mask of
    another length. *)
Fixpoint select_rows (df : DataFrame) (mask : list bool) : DataFrame :=
  match df, mask with
  | r :: df', b :: mask' => if b then r :: select_rows df' mask' else select_rows df' mask'
  | _, _ => []
  end.

Definition boolean_index (df : DataFrame) (mask : list bool) : PyResult DataFrame :=
  if decide (length mask = length df) then ret (select_rows df mask)
  else raise ValueError.

(** [ALWAYS_TRUE = lambda df: df.index != -1]. *)
Definition ALWAYS_TRUE : DataFilter :=
  λ df, (λ r, negb (Z.of_N (index r) =? -1)) <$> df.

(** ** Arrays and rasters *)

(** A numpy array: its shape and its elements in row-major order.  Pixel
    values are rationals, so that the scaling by 255 stays exact. *)
Record ndarray : Type := mkArray {
  shape : list nat;
  flat : list Q;
}.

(** [len(a)]: the first dimension. *)
Definition len (a : ndarray) : nat := hd 0%nat (shape a).

(** [np.array(xs)] on a list of arrays: the arrays stacked along a new first
    axis, which needs them to have one shape. *)
Definition np_array (xs : list ndarray) : PyResult ndarray :=
  match xs with
  | [] => ret (mkArray [0%nat] [])
  | x :: _ =>
      if decide (Forall (λ y, shape y = shape x) xs)
      then ret (mkArray (length xs :: shape x) (xs ≫= flat))
      else raise ValueError
  end.

(** [a[:, :, :, np.newaxis]]: a trailing axis of size one on an array of
    three dimensions; more indices than dimensions is an [IndexError]. *)
Definition newaxis4 (a : ndarray) : PyResult ndarray :=
  if decide (length (shape a) = 3%nat)
  then ret (mkArray (shape a ++ [1%nat]) (flat a))
  else raise IndexError.

(** [a / 255]. *)
Definition div255 (a : ndarray) : ndarray :=
  mkArray (shape a) ((λ x, x / 255)%Q <$> flat a).

(** The six coefficients of an affine geotransform. *)
Definition GeoTransform : Type := (Q * Q * Q * Q * Q * Q)%type.

(** What GDAL reports for a raster that carries no georeferencing. *)
Definition default_geotransform : GeoTransform := (0, 1, 0, 0, 0, 1)%Q.

(** A raster file as GDAL and the image loader both see it: its size in
    pixels, its bands, and the georeferencing it may carry. *)
Record RasterFile : Type := mkRasterFile {
  file_xsize : positive;
  file_ysize : positive;
  file_bands : positive;
  file_geotransform : option GeoTransform;
  file_projection : option string;
  file_pixel : nat → nat → nat → Q;     (* row, column, band *)
}.

(** An open GDAL dataset (the source file, or the in-memory destination). *)
Record Dataset : Type := mkDataset {
  RasterXSize : nat;
  RasterYSize : nat;
  GetGeoTransform : GeoTransform;
  GetProjection : string;
  NoDataValue : option Z;
  band1 : nat → nat → Z;                (* row, column *)
}.

(** [gdal.Open] on a readable file.  A file without georeferencing opens
    all the same, with the default transform and an empty projection. *)
Definition open_file (f : RasterFile) : Dataset :=
  {| RasterXSize := Pos.to_nat (file_xsize f);
     RasterYSize := Pos.to_nat (file_ysize f);
     GetGeoTransform := default default_geotransform (file_geotransform f);
     GetProjection := default EmptyString (file_projection f);
     NoDataValue := None;
     band1 := λ _ _, 0 |}.

(** [gdal.GetDriverByName('MEM').Create('', xsize, ysize, 1, gdal.GDT_Byte)]:
    a zero-filled raster of [xsize] columns and [ysize] rows. *)
Definition MEM_Create (xsize ysize : nat) : Dataset :=
  {| RasterXSize := xsize;
     RasterYSize := ysize;
     GetGeoTransform := default_geotransform;
     GetProjection := EmptyString;
     NoDataValue := None;
     band1 := λ _ _, 0 |}.

Definition SetGeoTransform (t : GeoTransform) (d : Dataset) : Dataset :=
  {| RasterXSize := RasterXSize d; RasterYSize := RasterYSize d;
     GetGeoTransform := t; GetProjection := GetProjection d;
     NoDataValue := NoDataValue d; band1 := band1 d |}.

Definition SetProjection (p : string) (d : Dataset) : Dataset :=
  {| RasterXSize := RasterXSize d; RasterYSize := RasterYSize d;
     GetGeoTransform := GetGeoTransform d; GetProjection := p;
     NoDataValue := NoDataValue d; band1 := band1 d |}.

Definition SetNoDataValue (v : Z) (d : Dataset) : Dataset :=
  {| RasterXSize := RasterXSize d; RasterYSize := RasterYSize d;
     GetGeoTransform := GetGeoTransform d; GetProjection := GetProjection d;
     NoDataValue := Some v; band1 := band1 d |}.

(** [ReadAsArray()] of a one-band dataset: [RasterYSize] rows of
    [RasterXSize] columns. *)
Definition ReadAsArray (d : Dataset) : ndarray :=
  mkArray [RasterYSize d; RasterXSize d]
    (row ← seq 0 (RasterYSize d);
     (λ col, inject_Z (band1 d row col)) <$> seq 0 (RasterXSize d)).

(** [plt.imread] on a readable file: rows, columns and, past one band, the
    bands. *)
Definition read_image (f : RasterFile) : ndarray :=
  let rows := Pos.to_nat (file_ysize f) in
  let cols := Pos.to_nat (file_xsize f) in
  let bands := Pos.to_nat (file_bands f) in
  mkArray (if decide (bands = 1%nat) then [rows; cols] else [rows; cols; bands])
    (row ← seq 0 rows; col ← seq 0 cols; file_pixel f row col <$> seq 0 bands).

Definition BLACK : Z := 0.
Definition BINARY_WHITE : Z := 1.

(** ** The collaborators *)

(** What the module imports from the rest of the package and treats as
    opaque: configurations, their defaults, and OGR geometries. *)
Class Imports : Type := {
  Config : Type;
  SplitConfig : Type;
  DEFAULT_SPLIT_CONFIG : SplitConfig;
  SegAugConfig : Type;
  MOVE_SCALE_ROTATE : SegAugConfig;
  Geometry : Type;
}.

Section Facade.
Context {imports : Imports}.

(** [SegmentationAugmentation(seg_aug_config, seed=aug_random_seed)]. *)
Record SegmentationAugmentation : Type := mkAugmentation {
  aug_config : SegAugConfig;
  aug_seed : option Z;
}.

(** A [GroupDataSplit] object, by the three tables it hands out. *)
Record GroupDataSplit_t : Type := mkSplit {
  train_df : DataFrame;
  val_df : DataFrame;
  test_df : DataFrame;
}.

(** The [_image_ids] attribute: the empty Python list [__init__] stores, or
    the array [unique()] returned.  [array == []] is never true for an array,
    whatever its size, so only the first state triggers the computation. *)
Inductive ImageIdsCache : Type :=
| EmptyList
| IdArray (ids : list string).

(** The attributes of a [Data] object. *)
Record Data : Type := mkData {
  config : Config;
  split_config : SplitConfig;
  _df : option DataFrame;
  _image_ids : ImageIdsCache;
  _data_filter : DataFilter;
  _split_data : option GroupDataSplit_t;
  batch_size : Z;
  augment : bool;
  augmentation : SegmentationAugmentation;
}.

Definition set__df (v : option DataFrame) (self : Data) : Data :=
  mkData (config self) (split_config self) v (_image_ids self)
    (_data_filter self) (_split_data self) (batch_size self) (augment self)
    (augmentation self).

Definition set__image_ids (v : ImageIdsCache) (self : Data) : Data :=
  mkData (config self) (split_config self) (_df self) v
    (_data_filter self) (_split_data self) (batch_size self) (augment self)
    (augmentation self).

Definition set__data_filter (v : DataFilter) (self : Data) : Data :=
  mkData (config self) (split_config self) (_df self) (_image_ids self)
    v (_split_data self) (batch_size self) (augment self)
    (augmentation self).

Definition set__split_data (v : option GroupDataSplit_t) (self : Data) : Data :=
  mkData (config self) (split_config self) (_df self) (_image_ids self)
    (_data_filter self) v (batch_size self) (augment self)
    (augmentation self).

(** The libraries, at the interface the module uses.  GDAL and OGR are in
    their default mode, in which a failed call returns [None] instead of
    raising (the mode the note in [mask_for] refers to). *)
Class Collaborators : Type := {
  (** [abfs.path.image_id_to_path]. *)
  image_id_to_path : Config → string → string;
  (** The raster files on disk, by path; an absent path cannot be opened. *)
  filesystem : gmap string RasterFile;
  (** [pd.read_csv] of the region's summary file, its polygons parsed by
      shapely and their areas added. *)
  load_table : Config → PyResult DataFrame;
  (** [GroupDataSplit(df, 'ImageId', split_config)]. *)
  GroupDataSplit : DataFrame → string → SplitConfig → GroupDataSplit_t;
  (** [ogr.CreateGeometryFromWkt]: [None] for a text that does not parse. *)
  CreateGeometryFromWkt : string → option Geometry;
  (** [gdal.RasterizeLayer]: whether the layer's features, under the
      raster's transform and projection, cover the pixel at a row and a
      column. *)
  covers : GeoTransform → string → list (list Geometry) → nat → nat → bool;
  (** [np.array(Image.fromarray(image).resize(shape))]. *)
  resize : nat * nat → ndarray → PyResult ndarray;
  (** [SegmentationAugmentation.run]. *)
  augmentation_run : SegmentationAugmentation → list ndarray → list ndarray →
                     list ndarray * list ndarray;
}.

Context {libs : Collaborators}.

(** *** Construction *)

(** [Data.__init__], every argument explicit. *)
Definition __init__ (config : Config) (split_config : SplitConfig)
    (seg_aug_config : SegAugConfig) (batch_size : Z)
    (override_df : option DataFrame) (aug_random_seed : option Z)
    (augment : bool) : PyResult Data :=
  (* Require batch size to be divisible by two if augmentation enabled *)
  if decide (augment = false ∨ pymod batch_size 2 = 0) then
    ret {| config := config;
           split_config := split_config;
           _df := override_df;
           _image_ids := EmptyList;
           _data_filter := ALWAYS_TRUE;
           _split_data := None;
           batch_size := batch_size;
           augment := augment;
           augmentation := mkAugmentation seg_aug_config aug_random_seed |}
  else raise AssertionError.

(** *** Methods: state and exceptions *)

(** A method reads and assigns attributes of [self] and may raise.  A raise
    carries no object: what the attributes were when a statement raised is
    not kept, and nothing below reads an object after an exception. *)
Definition Method (A : Type) : Type := Data → PyResult (A * Data).

#[global] Instance Method_ret : MRet Method := λ A a self, ret (a, self).
#[global] Instance Method_bind : MBind Method := λ A B k m self,
  match m self with
  | ret (a, self') => k a self'
  | raise e => raise e
  end.

Definition get {A} (f : Data → A) : Method A := λ self, ret (f self, self).
Definition assign (f : Data → Data) : Method unit := λ self, ret (tt, f self).
Definition this : Method Data := λ self, ret (self, self).
Definition lift {A} (m : PyResult A) : Method A := λ self,
  match m with
  | ret a => ret (a, self)
  | raise e => raise e
  end.

Fixpoint method_map {A B} (f : A → Method B) (xs : list A) : Method (list B) :=
  match xs with
  | [] => mret []
  | x :: xs' => y ← f x; ys ← method_map f xs'; mret (y :: ys)
  end.

(** *** General *)

(** The [data_filter] property and its setter. *)
Definition data_filter : Method DataFilter := get _data_filter.

Definition data_filter_setter (data_filter : DataFilter) : Method unit :=
  _ ← assign (set__data_filter data_filter);
  assign (set__split_data None).

Definition reset_filter : Method unit := data_filter_setter ALWAYS_TRUE.

(** The [df] property: the table, loaded on first use when none was given,
    restricted by the current filter. *)
Definition df : Method DataFrame :=
  cached ← get _df;
  table ← match cached with
           | Some table => mret table
           | None =>
               cfg ← get config;
               table ← lift (load_table cfg);
               _ ← assign (set__df (Some table));
               mret table
           end;
  flt ← data_filter;
  lift (boolean_index table (flt table)).

(** The [image_ids] property. *)
Definition image_ids : Method (list string) :=
  cached ← get _image_ids;
  match cached with
  | EmptyList =>
      view ← df;
      _ ← assign (set__image_ids (IdArray (ImageId_unique view)));
      mret (ImageId_unique view)
  | IdArray ids => mret ids
  end.

Definition grouped_df : Method DataFrame := df.

(** The [split_data] property. *)
Definition split_data : Method GroupDataSplit_t :=
  cached ← get _split_data;
  match cached with
  | None =>
      view ← df;
      sc ← get split_config;
      _ ← assign (set__split_data (Some (GroupDataSplit view "ImageId" sc)));
      mret (GroupDataSplit view "ImageId" sc)
  | Some s => mret s
  end.

(** *** Private methods: the batch planner *)

(** [self.batch_size // (int(augment) + 1)]. *)
Definition effective_batch_size (self : Data) (augment : bool) : Z :=
  floordiv (batch_size self) (int_of_bool augment + 1).

(** The identifiers [_batch_data] selects: its first four statements. *)
Definition batch_image_ids (self : Data) (df : DataFrame) (augment : bool)
    (batch_id : Z) : list string :=
  let batch_size := effective_batch_size self augment in
  let start_index := batch_id * batch_size in
  let end_index := start_index + batch_size in
  slice (ImageId_unique df) start_index end_index.

(** [_batch_data]: a new facade over the rows of the selected identifiers.
    The call names [config], [override_df] and [augment]; the other
    arguments are the defaults of [__init__]. *)
Definition _batch_data (self : Data) (df : DataFrame) (augment : bool)
    (batch_id : Z) : PyResult Data :=
  let image_ids := batch_image_ids self df augment batch_id in
  __init__ (config self) DEFAULT_SPLIT_CONFIG MOVE_SCALE_ROTATE 16
    (Some (isin_rows df image_ids)) None augment.

(** [_batch_count]. *)
Definition _batch_count (self : Data) (df : DataFrame) (augment : bool)
    : PyResult Z :=
  let batch_size := effective_batch_size self augment in
  q ← truediv (ImageId_nunique df) batch_size;
  ret (ceil q).

(** *** Train / validation / test data *)

(** [if df is None: df = self.split_data.train_df()]. *)
Definition or_train_df (df : option DataFrame) : Method DataFrame :=
  match df with
  | None => s ← split_data; mret (train_df s)
  | Some df => mret df
  end.

Definition train_batch_data (batch_id : Z) (df : option DataFrame) : Method Data :=
  df ← or_train_df df;
  self ← this;
  lift (_batch_data self df (augment self) batch_id).

Definition train_batch_count (df : option DataFrame) : Method Z :=
  df ← or_train_df df;
  self ← this;
  lift (_batch_count self df (augment self)).

Definition val_batch_data (batch_id : Z) : Method Data :=
  s ← split_data;
  self ← this;
  lift (_batch_data self (val_df s) false batch_id).

Definition val_batch_count : Method Z :=
  s ← split_data;
  self ← this;
  lift (_batch_count self (val_df s) false).

Definition test_batch_data (batch_id : Z) : Method Data :=
  s ← split_data;
  self ← this;
  lift (_batch_data self (test_df s) false batch_id).

Definition test_batch_count : Method Z :=
  s ← split_data;
  self ← this;
  lift (_batch_count self (test_df s) false).

(** *** Images and masks *)

(** [gdal.Open]: [None] when the file cannot be opened. *)
Definition gdal_Open (path : string) : option Dataset :=
  open_file <$> filesystem !! path.

(** [plt.imread]. *)
Definition imread (path : string) : PyResult ndarray :=
  match filesystem !! path with
  | Some f => ret (read_image f)
  | None => raise OSError
  end.

(** An attribute of an object that may be [None]. *)
Definition attribute_of {A} (obj : option A) : PyResult A :=
  match obj with
  | Some a => ret a
  | None => raise AttributeError
  end.

(** [multi_polygon.AddGeometry(geometry)]: the binding refuses a NULL
    geometry with a [ValueError]. *)
Definition AddGeometry (multi_polygon : list Geometry) (geometry : option Geometry)
    : PyResult (list Geometry) :=
  match geometry with
  | Some g => ret (multi_polygon ++ [g])
  | None => raise ValueError
  end.

(** [gdal.RasterizeLayer(dst, [1], layer, burn_values=[v])]. *)
Definition RasterizeLayer (dst : Dataset) (layer : list (list Geometry)) (v : Z)
    : Dataset :=
  {| RasterXSize := RasterXSize dst; RasterYSize := RasterYSize dst;
     GetGeoTransform := GetGeoTransform dst; GetProjection := GetProjection dst;
     NoDataValue := NoDataValue dst;
     band1 := λ row col,
       if covers (GetGeoTransform dst) (GetProjection dst) layer row col
       then v else band1 dst row col |}.

Definition image_for (image_id : string) : Method ndarray :=
  cfg ← get config;
  lift (imread (image_id_to_path cfg image_id)).

Definition mask_for (image_id : string) : Method ndarray :=
  (* Get all rows with the given image id *)
  grouped ← grouped_df;
  rows ← lift (get_group grouped image_id);
  (* Determine output mask width and height *)
  cfg ← get config;
  let srcRas_ds := gdal_Open (image_id_to_path cfg image_id) in
  src ← lift (attribute_of srcRas_ds);
  let x_size := RasterXSize src in
  let y_size := RasterYSize src in
  let transform := GetGeoTransform src in
  let projection := GetProjection src in
  (* Add all row polygons to multi-polygon *)
  multi_polygon ← lift (for_each
    (λ multi_polygon row,
       let geometry := CreateGeometryFromWkt (PolygonWKT_Geo row) in
       AddGeometry multi_polygon geometry)
    rows []);
  (* Set feature on polygon layer *)
  let polygon_layer := [multi_polygon] in
  (* Create raster layer of image size *)
  let destination_layer := MEM_Create x_size y_size in
  (* Match image transform and projection *)
  let destination_layer := SetGeoTransform transform destination_layer in
  let destination_layer := SetProjection projection destination_layer in
  (* Set empty value of output mask to be black *)
  let destination_layer := SetNoDataValue BLACK destination_layer in
  (* Rasterize image with white polygon areas *)
  let destination_layer :=
    RasterizeLayer destination_layer polygon_layer BINARY_WHITE in
  (* Return image mask result as np.array *)
  mret (ReadAsArray destination_layer).

(** *** Neural network input / output *)

Definition _resize_image (shape : nat * nat) (image : ndarray) : PyResult ndarray :=
  resize shape image.

(** [_to_single_nn]: the image, then the mask, each resized. *)
Definition _to_single_nn (shape : nat * nat) (image_id : string)
    : Method (ndarray * ndarray) :=
  image ← image_for image_id;
  mask ← mask_for image_id;
  image' ← lift (_resize_image shape image);
  mask' ← lift (_resize_image shape mask);
  mret (image', mask').

(** [list_unzip]: the images and the masks of the samples; of no sample,
    nothing at all. *)
Definition list_unzip (samples : list (ndarray * ndarray)) : list (list ndarray) :=
  match samples with
  | [] => []
  | _ => [fst <$> samples; snd <$> samples]
  end.

(** [a, b = xs]. *)
Definition unpack2 {A} (xs : list A) : PyResult (A * A) :=
  match xs with
  | [a; b] => ret (a, b)
  | _ => raise ValueError
  end.

Definition _augment_nn (self : Data) (inputs_and_outputs : list (list ndarray))
    : PyResult (list (list ndarray)) :=
  '(images, masks) ← unpack2 inputs_and_outputs;
  let '(aug_images, aug_masks) := augmentation_run (augmentation self) images masks in
  ret [images ++ aug_images; masks ++ aug_masks].

Definition _reshape_output (inputs_and_outputs : list ndarray)
    : PyResult (ndarray * ndarray) :=
  '(inputs, outputs) ← unpack2 inputs_and_outputs;
  outputs' ← newaxis4 outputs;
  ret (inputs, outputs').

(** [lens[0].modify(f)]. *)
Definition modify_0 {A} (f : A → A) (xs : list A) : PyResult (list A) :=
  match xs with
  | x :: xs' => ret (f x :: xs')
  | [] => raise IndexError
  end.

(** The samples of [to_nn] before they are stacked: the first four stages
    of its pipe. *)
Definition to_nn_samples (shape : nat * nat) : Method (list (list ndarray)) :=
  view ← df;
  samples ← method_map (_to_single_nn shape) (ImageId_unique view);
  self ← this;
  lift (if augment self then _augment_nn self (list_unzip samples)
        else ret (list_unzip samples)).

Definition to_nn (shape : nat * nat) (scale_pixels : bool)
    : Method (ndarray * ndarray) :=
  staged ← to_nn_samples shape;
  arrays ← lift (map_each np_array staged);
  arrays ← lift (if scale_pixels then modify_0 div255 arrays else ret arrays);
  lift (_reshape_output arrays).

End Facade.

(** ** A concrete installation

    Ten tiles of two columns by three rows, one of them ("plain") without
    georeferencing, and a table with one or two polygons per image.  The
    polygon of "torn" is cut short, and "lost" has no tile on disk.  The
    theorems below are run on it. *)

Module Demo.

#[export] Instance imports : Imports := {|
  Config := string;
  SplitConfig := unit;
  DEFAULT_SPLIT_CONFIG := tt;
  SegAugConfig := unit;
  MOVE_SCALE_ROTATE := tt;
  Geometry := string;
|}.

Definition tile (georeferenced : bool) : RasterFile :=
  {| file_xsize := 2; file_ysize := 3; file_bands := 3;
     file_geotransform :=
       if georeferenced then Some (10, 1, 0, 50, 0, -1)%Q else None;
     file_projection := if georeferenced then Some "EPSG:4326" else None;
     file_pixel := λ row col band, inject_Z (Z.of_nat (row + col + band)) |}.

Definition tile_ids : list string :=
  ["img0"; "img1"; "img2"; "img3"; "img4"; "img5"; "img6"; "img7"].

Definition path_of (cfg : string) (image_id : string) : string :=
  cfg +:+ "/" +:+ image_id +:+ ".tif".

Definition disk : gmap string RasterFile :=
  <[path_of "data" "plain" := tile false]>
    (list_to_map ((λ id, (path_of "data" id, tile true)) <$> "torn" :: tile_ids)).

Definition square : string := "POLYGON ((10 50, 11 50, 11 49, 10 49, 10 50))".

Definition table : DataFrame :=
  [ mkRow 0 "img0" square; mkRow 1 "img0" square; mkRow 2 "img1" square;
    mkRow 3 "img2" square; mkRow 4 "img3" square; mkRow 5 "img4" square;
    mkRow 6 "img5" square; mkRow 7 "img6" square; mkRow 8 "img1" square;
    mkRow 9 "img7" square; mkRow 10 "plain" square;
    mkRow 11 "torn" square; mkRow 12 "torn" "POLYGON ((10 50, 11";
    mkRow 13 "torn" square; mkRow 14 "lost" square ].

(** The parser of the installation accepts the closed polygon texts. *)
Definition parse (wkt : string) : option string :=
  if String.prefix "POLYGON ((" wkt
     && String.eqb (String.substring (String.length wkt - 2) 2 wkt) "))"
  then Some wkt else None.

#[export] Instance collaborators : Collaborators := {|
  image_id_to_path := path_of;
  filesystem := disk;
  load_table := λ _, ret table;
  GroupDataSplit := λ df _ _,
    mkSplit (isin_rows df tile_ids) (isin_rows df ["plain"]) [];
  CreateGeometryFromWkt := parse;
  covers := λ _ _ layer row col,
    bool_decide (layer ≠ [[]]) && (row =? 0)%nat;
  resize := λ size a,
    ret (mkArray (size.2 :: size.1 :: drop 2 (shape a))
           (replicate (size.2 * size.1 * foldr Nat.mul 1 (drop 2 (shape a)))%nat 0%Q));
  augmentation_run := λ _ images masks, (reverse images, reverse masks);
|}.

(** [Data("data", batch_size=batch_size, augment=augment)]. *)
Definition facade (batch_size : Z) (augment : bool) : PyResult Data :=
  __init__ "data" DEFAULT_SPLIT_CONFIG MOVE_SCALE_ROTATE batch_size None None augment.

(** The object that call builds when its check passes. *)
Definition built (batch_size : Z) (augment : bool) : Data :=
  {| config := "data"; split_config := DEFAULT_SPLIT_CONFIG; _df := None;
     _image_ids := EmptyList; _data_filter := ALWAYS_TRUE; _split_data := None;
     batch_size := batch_size; augment := augment;
     augmentation := mkAugmentation MOVE_SCALE_ROTATE None |}.

(** A filter that hides the rows of "img1". *)
Definition without_img1 : DataFilter :=
  λ df, (λ r, negb (String.eqb (ImageId r) "img1")) <$> df.

(** The same installation with a summary file that cannot be read. *)
Definition unreadable : Collaborators := {|
  image_id_to_path := path_of;
  filesystem := disk;
  load_table := λ _, raise OSError;
  GroupDataSplit := GroupDataSplit (Collaborators := collaborators);
  CreateGeometryFromWkt := parse;
  covers := covers (Collaborators := collaborators);
  resize := resize (Collaborators := collaborators);
  augmentation_run := augmentation_run (Collaborators := collaborators);
|}.

(** The facade of the installation with its table read, and the same
    facade over the rows of the eight tiles that resolve. *)
Definition loaded : Data := set__df (Some table) (built 16 false).
Definition tiles : Data :=
  set__df (Some (isin_rows table tile_ids)) (built 16 false).

(** The facade [d] after its table and its split have been resolved. *)
Definition resolved (d : Data) : Data :=
  set__split_data (Some (GroupDataSplit table "ImageId" (split_config d)))
    (set__df (Some table) d).

(** A session: read [image_ids] and the split, set the filter, and read
    [image_ids], the visible identifiers and the split again.  The result
    lists the identifiers seen at each of the five reads. *)
Definition filter_session
    : Method (list string * list string * list string * list string * list string) :=
  ids_before ← image_ids;
  split_before ← split_data;
  _ ← data_filter_setter without_img1;
  ids_after ← image_ids;
  view ← df;
  split_after ← split_data;
  mret (ids_before, ImageId_unique (train_df split_before),
        ids_after, ImageId_unique view, ImageId_unique (train_df split_after)).

End Demo.

(** ** Vocabulary of the statements *)

(** The integer that [math.ceil] returns for [a / b]: the least [k] with
    [a / b <= k], without a division. *)
Definition is_ceiling (a b k : Z) : Prop :=
  (0 < b ∧ (k - 1) * b < a ≤ k * b) ∨ (b < 0 ∧ k * b ≤ a < (k - 1) * b).

(** Two identifier sequences with no identifier in common. *)
Definition disjoint_lists (l1 l2 : list string) : Prop :=
  ∀ x, x ∈ l1 → x ∉ l2.

Section Vocabulary.
Context {imports : Imports} {libs : Collaborators}.

(** The settings a method never assigns. *)
Definition same_settings (s1 s2 : Data) : Prop :=
  config s1 = config s2 ∧ split_config s1 = split_config s2 ∧
  batch_size s1 = batch_size s2 ∧ augment s1 = augment s2 ∧
  augmentation s1 = augmentation s2 ∧ _data_filter s1 = _data_filter s2 ∧
  _image_ids s1 = _image_ids s2.

(** The polygon loop of [mask_for]. *)
Definition add_polygons (rows : list Row) (acc : list Geometry)
    : PyResult (list Geometry) :=
  for_each (λ multi_polygon row,
              AddGeometry multi_polygon (CreateGeometryFromWkt (PolygonWKT_Geo row)))
    rows acc.

(** The raster [mask_for] reads back, from the opened source and the
    multi-polygon. *)
Definition burnt (src : Dataset) (multi_polygon : list Geometry) : Dataset :=
  RasterizeLayer
    (SetNoDataValue BLACK
       (SetProjection (GetProjection src)
          (SetGeoTransform (GetGeoTransform src)
             (MEM_Create (RasterXSize src) (RasterYSize src)))))
    [multi_polygon] BINARY_WHITE.

(** A facade that stages one image and one mask per identifier of [ids]. *)
Definition stages_plain (sub : Data) (ids : list string) : Prop :=
  ∀ shape staged s2,
    to_nn_samples shape sub = ret (staged, s2) →
    Forall (λ l : list ndarray, length l = length ids) staged.

(** A facade that stages, per identifier of [ids], one image and one mask
    followed by what the augmentation returns for them. *)
Definition stages_doubled (sub : Data) (ids : list string) : Prop :=
  ∀ shape staged s2,
    to_nn_samples shape sub = ret (staged, s2) →
    ∃ orig_images aug_images orig_masks aug_masks,
      staged = [orig_images ++ aug_images; orig_masks ++ aug_masks] ∧
      length orig_images = length ids ∧ length orig_masks = length ids ∧
      augmentation_run (augmentation sub) orig_images orig_masks
      = (aug_images, aug_masks).

(** Arrays that can be stacked: they have one shape, of [dims] dimensions. *)
Definition stackable (dims : nat) (arrays : list ndarray) : Prop :=
  ∃ s, length s = dims ∧ Forall (λ a, shape a = s) arrays.

End Vocabulary.

(** ** The rest of the facade: generators and the green mask *)

Section Generators.
Context {imports : Imports} {libs : Collaborators}.

(** What a generator class is given: a function that returns the batch
    count accessor and the batch accessor. *)
Definition Accessors : Type := (Method Z * (Z → Method Data))%type.

(** [params] of [train_generator]: the train table is read once, and both
    accessors are closed over it ([rpartial] appends it to their
    arguments). *)
Definition train_params : Method Accessors :=
  s ← split_data;
  let df := train_df s in
  let len_f := train_batch_count (Some df) in
  let data_f := λ batch_id, train_batch_data batch_id (Some df) in
  mret (len_f, data_f).

(** [lambda: (self.val_batch_count, self.val_batch_data)] and its test
    counterpart: the bound methods themselves. *)
Definition val_params : Method Accessors := mret (val_batch_count, val_batch_data).
Definition test_params : Method Accessors := mret (test_batch_count, test_batch_data).

(** The generators hand the accessors and the shape to the class they are
    given (already applied to its keyword arguments). *)
Definition train_generator {G} (klass : Method Accessors → nat * nat → G)
    (shape : nat * nat) : G :=
  klass train_params shape.

Definition val_generator {G} (klass : Method Accessors → nat * nat → G)
    (shape : nat * nat) : G :=
  klass val_params shape.

Definition test_generator {G} (klass : Method Accessors → nat * nat → G)
    (shape : nat * nat) : G :=
  klass test_params shape.

(** [np.zeros(shape)]. *)
Definition np_zeros (dims : list nat) : ndarray :=
  mkArray dims (replicate (foldr Nat.mul 1%nat dims) 0%Q).

(** [np.atleast_3d]: a scalar becomes (1, 1, 1), a vector of [n] entries
    (1, n, 1), a matrix of [m] by [n] entries (m, n, 1). *)
Definition atleast_3d (a : ndarray) : ndarray :=
  match shape a with
  | [] => mkArray [1; 1; 1]%nat (flat a)
  | [n] => mkArray [1; n; 1]%nat (flat a)
  | [m; n] => mkArray [m; n; 1]%nat (flat a)
  | _ => a
  end.

(** The entries an array of at least three dimensions has per position of
    its first two axes, and the number of those positions. *)
Definition depth_entries (a : ndarray) : nat := foldr Nat.mul 1%nat (drop 2 (shape a)).
Definition positions (a : ndarray) : nat := foldr Nat.mul 1%nat (take 2 (shape a)).

(** [np.dstack(arrays)]: the arrays, made three-dimensional, joined along
    the third axis; they must agree on every other axis. *)
Definition np_dstack (arrays : list ndarray) : PyResult ndarray :=
  match atleast_3d <$> arrays with
  | [] => raise ValueError
  | a :: rest =>
      if decide (Forall (λ b, take 2 (shape b) = take 2 (shape a) ∧
                              drop 3 (shape b) = drop 3 (shape a)) rest)
      then ret (mkArray
                  (take 2 (shape a)
                   ++ sum_list ((λ b, nth 2 (shape b) 0%nat) <$> a :: rest)
                   :: drop 3 (shape a))
                  (cell ← seq 0 (positions a);
                   b ← a :: rest;
                   take (depth_entries b) (drop (cell * depth_entries b) (flat b))))
      else raise ValueError
  end.

(** [green_mask_for]. *)
Definition green_mask_for (image_id : string) : Method ndarray :=
  mask ← mask_for image_id;
  let blank := np_zeros (shape mask) in
  lift (np_dstack [blank; mask; blank]).

(** The value a method returned, or its exception, without the object. *)
Definition outcome {A} (r : PyResult (A * Data)) : PyResult A :=
  match r with
  | ret (a, _) => ret a
  | raise e => raise e
  end.

End Generators.

(** * Properties *)

(** ** Python built-ins *)

Section Builtins.

Lemma ceil_truediv (a b : Z) :
  b ≠ 0 → truediv a b = ret (inject_Z a / inject_Z b)%Q ∧
          ceil (inject_Z a / inject_Z b)%Q = - ((- a) `div` b).
Proof.
  intros Hb. split.
  - unfold truediv. destruct (decide (b = 0)); [contradiction | reflexivity].
  - unfold ceil, Qceiling. f_equal. rewrite Zdiv_Qdiv.
    apply Qfloor_comp. rewrite inject_Z_opp. unfold Qdiv. ring.
Qed.

Lemma neg_div_is_ceiling (a b : Z) : b ≠ 0 → is_ceiling a b (- ((- a) `div` b)).
Proof.
  intros Hb. unfold is_ceiling.
  pose proof (Z.div_mod (- a) b Hb) as Hdm.
  destruct (Z.lt_trichotomy b 0) as [Hneg | [-> | Hpos]]; [right | done | left].
  - pose proof (Z.mod_neg_bound (- a) b Hneg). split; [done | nia].
  - pose proof (Z.mod_pos_bound (- a) b Hpos). split; [done | nia].
Qed.

Lemma is_ceiling_unique (a b k k' : Z) :
  is_ceiling a b k → is_ceiling a b k' → k = k'.
Proof. unfold is_ceiling. intros [[? ?] | [? ?]] [[? ?] | [? ?]]; nia. Qed.

Lemma slice_bound_nonneg (n i : Z) : 0 ≤ n → 0 ≤ i → slice_bound n i = Z.min i n.
Proof. intros. unfold slice_bound. destruct (decide (i < 0)); lia. Qed.

(** A slice with bounds that are not negative is a [take] of a [drop]. *)
Lemma slice_take_drop {A} (xs : list A) (start stop : Z) :
  0 ≤ start → 0 ≤ stop →
  slice xs start stop = take (Z.to_nat (stop - start)) (drop (Z.to_nat start) xs).
Proof.
  intros Hs He. unfold slice.
  rewrite !slice_bound_nonneg by lia.
  destruct (decide (start ≤ Z.of_nat (length xs))) as [Hin | Hout].
  - rewrite (Z.min_l start) by lia.
    destruct (decide (stop ≤ Z.of_nat (length xs))).
    + by rewrite (Z.min_l stop) by lia.
    + rewrite (Z.min_r stop) by lia.
      rewrite !take_ge; [done | |]; rewrite length_drop; lia.
  - rewrite (Z.min_r start) by lia.
    rewrite !drop_ge by lia. by rewrite !take_nil.
Qed.

Lemma range_length (n : Z) : length (range n) = Z.to_nat n.
Proof. unfold range. by rewrite length_fmap, length_seq. Qed.

Lemma elem_of_range (n i : Z) : i ∈ range n ↔ 0 ≤ i < n.
Proof.
  unfold range. rewrite list_elem_of_fmap. split.
  - intros (k & -> & Hk). apply elem_of_seq in Hk. lia.
  - intros Hi. exists (Z.to_nat i). split; [lia |]. apply elem_of_seq. lia.
Qed.

(** Consecutive chunks of [e] elements, put end to end, are a prefix. *)
Lemma concat_chunks {A} (xs : list A) (e n : nat) :
  concat ((λ i, take e (drop (i * e) xs)) <$> seq 0 n) = take (n * e) xs.
Proof.
  induction n as [| n IH]; [done |].
  rewrite seq_S, fmap_app, concat_app, IH. simpl.
  rewrite app_nil_r, take_take_drop. f_equal. lia.
Qed.

End Builtins.

(** ** The annotation table *)

Section Table.

Lemma unique_from_spec (seen xs : list string) :
  NoDup (unique_from seen xs) ∧
  ∀ x, x ∈ unique_from seen xs ↔ x ∈ xs ∧ x ∉ seen.
Proof.
  revert seen. induction xs as [| y xs IH]; intros seen; simpl.
  - split; [constructor |]. intros x. rewrite elem_of_nil. tauto.
  - destruct (decide (y ∈ seen)) as [Hy | Hy].
    + destruct (IH seen) as [Hnd Hin]. split; [done |].
      intros x. rewrite Hin, elem_of_cons. split; [tauto |].
      intros [[-> | Hx] Hseen]; [contradiction | tauto].
    + destruct (IH (y :: seen)) as [Hnd Hin]. split.
      * constructor; [| done]. rewrite Hin, elem_of_cons. tauto.
      * intros x. rewrite !elem_of_cons, Hin, elem_of_cons.
        destruct (decide (x = y)) as [-> | Hne]; [| tauto].
        pose proof (eq_refl y). tauto.
Qed.

Lemma NoDup_unique (xs : list string) : NoDup (unique xs).
Proof. apply unique_from_spec. Qed.

Lemma elem_of_unique (xs : list string) (x : string) : x ∈ unique xs ↔ x ∈ xs.
Proof.
  unfold unique. rewrite (proj2 (unique_from_spec [] xs)), elem_of_nil. tauto.
Qed.

(** Values outside [P] among those already met do not matter to what
    [unique] keeps inside [P]. *)
Lemma filter_unique_from_seen (P : string → Prop) `{∀ x, Decision (P x)}
    (seen seen' xs : list string) :
  (∀ y, P y → y ∈ seen ↔ y ∈ seen') →
  filter P (unique_from seen xs) = filter P (unique_from seen' xs).
Proof.
  revert seen seen'. induction xs as [| x xs IH]; intros seen seen' Hagree; [done |].
  simpl. destruct (decide (P x)) as [HP | HP].
  - destruct (decide (x ∈ seen)) as [Hx | Hx], (decide (x ∈ seen')) as [Hx' | Hx'];
      try (exfalso; apply (Hagree x HP) in Hx || apply (Hagree x HP) in Hx'; done).
    + by apply IH.
    + rewrite !filter_cons_True by done. f_equal. apply IH.
      intros y Hy. rewrite !elem_of_cons. specialize (Hagree y Hy). tauto.
  - assert (∀ s s' : list string, (∀ y, P y → y ∈ s ↔ y ∈ s') →
                    (∀ y, P y → y ∈ x :: s ↔ y ∈ s')) as Hdrop.
    { intros s s' Hs y Hy. rewrite elem_of_cons, <- Hs by done.
      split; [intros [-> | ?]; done | auto]. }
    assert (∀ s s' : list string, (∀ y, P y → y ∈ s ↔ y ∈ s') →
                    (∀ y, P y → y ∈ s ↔ y ∈ x :: s')) as Hdrop'.
    { intros s s' Hs y Hy. symmetry. apply Hdrop; [| done].
      intros z Hz. symmetry. by apply Hs. }
    destruct (decide (x ∈ seen)), (decide (x ∈ seen'));
      rewrite ?filter_cons_False by done; apply IH; auto.
Qed.

(** [unique] commutes with a selection of values. *)
Lemma unique_from_filter (P : string → Prop) `{∀ x, Decision (P x)}
    (seen xs : list string) :
  unique_from seen (filter P xs) = filter P (unique_from seen xs).
Proof.
  revert seen. induction xs as [| x xs IH]; intros seen; [done |].
  destruct (decide (P x)) as [HP | HP].
  - rewrite filter_cons_True by done. simpl.
    destruct (decide (x ∈ seen)); [apply IH |].
    rewrite filter_cons_True by done. f_equal. apply IH.
  - rewrite filter_cons_False by done. simpl. rewrite IH.
    destruct (decide (x ∈ seen)); [done |].
    rewrite filter_cons_False by done.
    apply filter_unique_from_seen. intros y Hy. rewrite elem_of_cons.
    split; [auto | intros [-> | ?]; done].
Qed.

Lemma filter_all {A} (P : A → Prop) `{∀ x, Decision (P x)} (l : list A) :
  Forall P l → filter P l = l.
Proof.
  induction 1 as [| x l HP _ IH]; [done |].
  by rewrite filter_cons_True, IH.
Qed.

Lemma filter_none {A} (P : A → Prop) `{∀ x, Decision (P x)} (l : list A) :
  Forall (λ x, ¬ P x) l → filter P l = [].
Proof.
  induction 1 as [| x l HP _ IH]; [done |].
  by rewrite filter_cons_False.
Qed.

(** In a list without duplicates, selecting the members of a window gives
    the window. *)
Lemma filter_window (us : list string) (k n : nat) :
  NoDup us →
  filter (λ x, x ∈ take n (drop k us)) us = take n (drop k us).
Proof.
  intros Hnd.
  set (w := take n (drop k us)).
  assert (us = take k us ++ w ++ drop n (drop k us)) as Hsplit.
  { unfold w. by rewrite !take_drop. }
  rewrite Hsplit in Hnd.
  apply NoDup_app in Hnd as (_ & Hpre & Hnd).
  apply NoDup_app in Hnd as (_ & Hpost & _).
  rewrite Hsplit at 1. rewrite !filter_app.
  rewrite (filter_none _ (take k us)), (filter_all _ w), (filter_none _ (drop n _)).
  - by rewrite app_nil_r.
  - apply Forall_forall. intros x Hx Hw. by apply (Hpost x).
  - by apply Forall_forall.
  - apply Forall_forall. intros x Hx Hw. apply (Hpre x Hx). set_solver.
Qed.

(** The identifiers of the selected rows are the selected identifiers. *)
Lemma ImageId_unique_isin_rows (df : DataFrame) (image_ids : list string) :
  ImageId_unique (isin_rows df image_ids)
  = filter (λ x, x ∈ image_ids) (ImageId_unique df).
Proof.
  unfold ImageId_unique, isin_rows, unique.
  rewrite <- unique_from_filter. f_equal.
  induction df as [| r df IH]; [done |].
  destruct (decide (ImageId r ∈ image_ids)).
  - rewrite filter_cons_True by done. rewrite !fmap_cons.
    rewrite filter_cons_True by done. by rewrite IH.
  - rewrite filter_cons_False by done. rewrite fmap_cons.
    by rewrite filter_cons_False by done.
Qed.

Lemma ImageId_unique_window (df : DataFrame) (k n : nat) :
  ImageId_unique (isin_rows df (take n (drop k (ImageId_unique df))))
  = take n (drop k (ImageId_unique df)).
Proof.
  rewrite ImageId_unique_isin_rows. apply filter_window, NoDup_unique.
Qed.

Lemma ALWAYS_TRUE_all (df : DataFrame) :
  ALWAYS_TRUE df = replicate (length df) true.
Proof.
  unfold ALWAYS_TRUE. induction df as [| r df IH]; [done |].
  rewrite fmap_cons, IH. simpl. f_equal.
  destruct (Z.eqb_spec (Z.of_N (index r)) (-1)); [lia | done].
Qed.

Lemma select_rows_all (df : DataFrame) :
  select_rows df (replicate (length df) true) = df.
Proof. induction df as [| r df IH]; [done |]. simpl. by rewrite IH. Qed.

Lemma boolean_index_ALWAYS_TRUE (df : DataFrame) :
  boolean_index df (ALWAYS_TRUE df) = ret df.
Proof.
  unfold boolean_index. rewrite ALWAYS_TRUE_all, length_replicate.
  destruct (decide (length df = length df)); [| done].
  by rewrite select_rows_all.
Qed.

End Table.

(** ** The batch planner *)

Section Planner.
Context {imports : Imports} {libs : Collaborators}.

Lemma length_concat_sum {A} (ls : list (list A)) :
  length (concat ls) = sum_list_with length ls.
Proof. induction ls as [| l ls IH]; [done |]. simpl. rewrite length_app. lia. Qed.

(** A member of a window sits at an index inside the window. *)
Lemma elem_of_window {A} (l : list A) (k n : nat) (x : A) :
  x ∈ take n (drop k l) → ∃ i, l !! i = Some x ∧ (k ≤ i < k + n)%nat.
Proof.
  intros (i & Hi)%list_elem_of_lookup.
  apply lookup_take_Some in Hi as [Hi Hlt].
  rewrite lookup_drop in Hi. exists (k + i)%nat. split; [done | lia].
Qed.

Lemma effective_batch_size_spec (self : Data) (augment : bool) :
  let e := effective_batch_size self augment in
  if augment then 2 * e ≤ batch_size self ≤ 2 * e + 1 else e = batch_size self.
Proof.
  unfold effective_batch_size, floordiv, int_of_bool. destruct augment; simpl.
  - change (0 + 1 + 1) with 2 || change (1 + 1) with 2.
    pose proof (Z.div_mod (batch_size self) 2 ltac:(lia)).
    pose proof (Z.mod_pos_bound (batch_size self) 2 ltac:(lia)). lia.
  - apply Z.div_1_r.
Qed.

Lemma batch_count_value (self : Data) (df : list Row) (augment : bool) :
  effective_batch_size self augment ≠ 0 →
  _batch_count self df augment
  = ret (- ((- ImageId_nunique df) `div` effective_batch_size self augment)).
Proof.
  intros He. unfold _batch_count.
  destruct (ceil_truediv (ImageId_nunique df) _ He) as [-> <-]. done.
Qed.

Lemma batch_count_zero_division (self : Data) (df : list Row) (augment : bool) :
  effective_batch_size self augment = 0 →
  _batch_count self df augment = raise ZeroDivisionError.
Proof.
  intros He. unfold _batch_count, truediv. rewrite He.
  destruct (decide (0 = 0)); done.
Qed.

(** A batch at an index that is not negative is a window of the partition. *)
Lemma batch_image_ids_window (self : Data) (df : list Row) (augment : bool) (i : Z) :
  0 < effective_batch_size self augment → 0 ≤ i →
  batch_image_ids self df augment i
  = take (Z.to_nat (effective_batch_size self augment))
      (drop (Z.to_nat (i * effective_batch_size self augment)) (ImageId_unique df)).
Proof.
  intros He Hi. unfold batch_image_ids.
  rewrite slice_take_drop by nia. do 2 f_equal. lia.
Qed.

(** The sub-facade of a batch: the constructor's check never fails on the
    default batch size. *)
Lemma batch_data_value (self : Data) (df : list Row) (augment : bool) (batch_id : Z) :
  _batch_data self df augment batch_id
  = ret {| config := config self;
           split_config := DEFAULT_SPLIT_CONFIG;
           _df := Some (isin_rows df (batch_image_ids self df augment batch_id));
           _image_ids := EmptyList;
           _data_filter := ALWAYS_TRUE;
           _split_data := None;
           batch_size := 16;
           augment := augment;
           augmentation := mkAugmentation MOVE_SCALE_ROTATE None |}.
Proof.
  unfold _batch_data, __init__.
  destruct (decide (augment = false ∨ pymod 16 2 = 0)) as [_ | Hno]; [done |].
  exfalso. apply Hno. by right.
Qed.

End Planner.

(** ** The claims about the batch planner *)

Section PlannerClaims.
Context {imports : Imports} {libs : Collaborators}.





(** C5.  With augmentation on and an odd batch size the constructor raises
    at its assertion and no facade exists; with augmentation off every batch
    size is accepted, and so is an even one with augmentation on. *)
Theorem init_checks_batch_size (cfg : Config) (sc : SplitConfig)
    (seg_aug_config : SegAugConfig) (size : Z)
    (override_df : option (list Row)) (aug_random_seed : option Z) :
  let new := __init__ cfg sc seg_aug_config size override_df aug_random_seed in
  (Z.odd size = true → new true = raise AssertionError) ∧
  (∃ d, new false = ret d ∧ batch_size d = size ∧ augment d = false) ∧
  (Z.even size = true →
   ∃ d, new true = ret d ∧ batch_size d = size ∧ augment d = true).
Proof.
  simpl. unfold __init__, pymod. split; [| split].
  - intros Hodd. rewrite Zodd_mod in Hodd. apply Z.eqb_eq in Hodd.
    destruct (decide _) as [[? | Hmod] | _]; [done | lia | done].
  - destruct (decide _) as [_ | Hno]; [eauto | exfalso; auto].
  - intros Heven. rewrite Zeven_mod in Heven. apply Z.eqb_eq in Heven.
    destruct (decide _) as [_ | Hno]; [eauto | exfalso; auto].
Qed.


End PlannerClaims.

Module PlannerRuns.
Import Demo.






(** [Data("data", batch_size=3, augment=True)] and the same with
    [augment=False]. *)
Lemma init_checks_batch_size_run :
  facade 3 true = raise AssertionError ∧ facade 3 false = ret (built 3 false).
Proof.
  destruct (init_checks_batch_size (imports := imports) "data" tt tt 3 None None) as (Hodd & (d & Hd & _) & _).
  split; [apply Hodd; reflexivity | reflexivity].
Defined.

End PlannerRuns.

(** ** Methods: how results and states come about *)

Section Methods.
Context {imports : Imports} {libs : Collaborators}.

Lemma result_bind_ret {A B} (m : PyResult A) (k : A → PyResult B) (b : B) :
  m ≫= k = ret b → ∃ a, m = ret a ∧ k a = ret b.
Proof. destruct m as [a | e]; [eauto | discriminate]. Qed.

Lemma method_bind_ret {A B} (m : Method A) (k : A → Method B)
    (self s2 : Data) (b : B) :
  (m ≫= k) self = ret (b, s2) →
  ∃ a s1, m self = ret (a, s1) ∧ k a s1 = ret (b, s2).
Proof.
  unfold mbind, Method_bind. destruct (m self) as [[a s1] | e]; [eauto | discriminate].
Qed.

Lemma method_bind_run {A B} (m : Method A) (k : A → Method B)
    (self s1 : Data) (a : A) :
  m self = ret (a, s1) → (m ≫= k) self = k a s1.
Proof. intros Hm. unfold mbind, Method_bind. by rewrite Hm. Qed.

Lemma method_bind_raise {A B} (m : Method A) (k : A → Method B)
    (self : Data) (e : PyError) :
  m self = raise e → (m ≫= k) self = raise e.
Proof. intros Hm. unfold mbind, Method_bind. by rewrite Hm. Qed.

Lemma lift_ret {A} (m : PyResult A) (self s1 : Data) (a : A) :
  lift m self = ret (a, s1) ↔ m = ret a ∧ s1 = self.
Proof.
  unfold lift. destruct m as [a' | e]; split; try discriminate.
  - by intros [= -> ->].
  - by intros [[= ->] ->].
  - by intros [? _].
Qed.

(** [df]: the table is the cached one or the one just loaded, and only
    [_df] may have been assigned. *)
Lemma df_ret (self s1 : Data) (view : list Row) :
  df self = ret (view, s1) →
  ∃ table,
    (_df self = Some table ∨
     (_df self = None ∧ load_table (config self) = ret table)) ∧
    s1 = set__df (Some table) self ∧
    boolean_index table (_data_filter self table) = ret view.
Proof.
  unfold df, data_filter, get. intros Hdf.
  apply method_bind_ret in Hdf as (cached & s0 & [= <- <-] & Hdf).
  apply method_bind_ret in Hdf as (table & s2 & Htable & Hdf).
  apply method_bind_ret in Hdf as (flt & s3 & [= <- <-] & Hdf).
  apply lift_ret in Hdf as [Hview ->].
  exists table. destruct (_df self) as [t |] eqn:Hcache.
  - injection Htable as <- <-. split; [by left |]. split; [| done].
    destruct self. simpl in *. by subst.
  - apply method_bind_ret in Htable as (cfg & s4 & [= <- <-] & Htable).
    apply method_bind_ret in Htable as (t & s5 & Hload & Htable).
    apply lift_ret in Hload as [Hload ->].
    apply method_bind_ret in Htable as ([] & s6 & [= <-] & [= <- <-]).
    split; [by right |]. split; [done |]. by subst.
Qed.

Lemma df_cached (self : Data) (table : list Row) :
  _df self = Some table →
  df self = lift (boolean_index table (_data_filter self table)) self.
Proof.
  intros Hcache. unfold df, data_filter, get, mbind, Method_bind.
  by rewrite Hcache.
Qed.

Lemma set__df_cached (self : Data) (table : list Row) :
  _df self = Some table → set__df (Some table) self = self.
Proof. destruct self. simpl. by intros ->. Qed.

Lemma df_same_settings (self s1 : Data) (view : list Row) :
  df self = ret (view, s1) → same_settings self s1 ∧ _split_data s1 = _split_data self.
Proof. intros (table & _ & -> & _)%df_ret. by repeat split. Qed.

(** [split_data]: the cached split, or the split of the current view. *)
Lemma split_data_ret (self s1 : Data) (s : GroupDataSplit_t) :
  split_data self = ret (s, s1) →
  same_settings self s1 ∧ _split_data s1 = Some s ∧
  (_split_data self = Some s ∨
   (_split_data self = None ∧
    ∃ view s0, df self = ret (view, s0) ∧
               s = GroupDataSplit view "ImageId" (split_config self))).
Proof.
  unfold split_data, get. intros Hs.
  apply method_bind_ret in Hs as (cached & s0 & [= <- <-] & Hs).
  destruct (_split_data self) as [c |] eqn:Hcache.
  - injection Hs as <- <-. repeat split; auto.
  - apply method_bind_ret in Hs as (view & s2 & Hdf & Hs).
    apply method_bind_ret in Hs as (sc & s3 & [= <- <-] & Hs).
    apply method_bind_ret in Hs as ([] & s4 & [= <-] & [= <- <-]).
    destruct (df_same_settings _ _ _ Hdf) as [Hsame _].
    destruct Hsame as (? & Hsc & ? & ? & ? & ? & ?).
    split; [by repeat split |]. split; [done |]. right. split; [done |].
    exists view, s2. by rewrite Hsc.
Qed.

(** The setter assigns the filter, empties the split cache, and leaves
    [_image_ids] as it was. *)
Lemma data_filter_setter_ret (self : Data) (flt : DataFilter) :
  data_filter_setter flt self
  = ret (tt, set__split_data None (set__data_filter flt self)).
Proof. done. Qed.

(** A facade over a given table ([override_df]) is never assigned by the
    methods that resolve samples. *)
Lemma image_for_ret (self s1 : Data) (image_id : string) (image : ndarray) :
  image_for image_id self = ret (image, s1) ↔
  imread (image_id_to_path (config self) image_id) = ret image ∧ s1 = self.
Proof.
  unfold image_for, get, mbind, Method_bind. apply lift_ret.
Qed.

(** *** Mask synthesis *)

Lemma add_polygons_ok (rows : list Row) (acc : list Geometry) :
  Forall (λ r, is_Some (CreateGeometryFromWkt (PolygonWKT_Geo r))) rows →
  ∃ gs, add_polygons rows acc = ret (acc ++ gs) ∧ length gs = length rows.
Proof.
  intros Hall. revert acc. induction Hall as [| r rows [g Hg] _ IH]; intros acc.
  - exists []. by rewrite app_nil_r.
  - destruct (IH (acc ++ [g])) as (gs & Hrun & Hlen).
    exists (g :: gs). unfold add_polygons in *. simpl. rewrite Hg. simpl.
    rewrite Hrun, <- app_assoc. simpl. by rewrite Hlen.
Qed.

(** The loop ends at the first text that does not parse, whatever follows. *)
Lemma add_polygons_fail (rows : list Row) (acc : list Geometry) :
  Exists (λ r, CreateGeometryFromWkt (PolygonWKT_Geo r) = None) rows →
  add_polygons rows acc = raise ValueError.
Proof.
  intros Hex. revert acc. induction Hex as [r rows Hr | r rows _ IH]; intros acc.
  - unfold add_polygons. simpl. by rewrite Hr.
  - unfold add_polygons in *. simpl.
    destruct (CreateGeometryFromWkt (PolygonWKT_Geo r)); simpl; [apply IH | done].
Qed.

(** [mask_for], once the view and the rows of the image are known. *)
Lemma mask_for_run (self s1 : Data) (view rows : list Row) (image_id : string) :
  df self = ret (view, s1) →
  get_group view image_id = ret rows →
  mask_for image_id self =
    match filesystem !! image_id_to_path (config self) image_id with
    | None => raise AttributeError
    | Some f =>
        match add_polygons rows [] with
        | ret multi_polygon => ret (ReadAsArray (burnt (open_file f) multi_polygon), s1)
        | raise e => raise e
        end
    end.
Proof.
  intros Hdf Hgroup.
  destruct (df_same_settings _ _ _ Hdf) as [(Hcfg & _) _].
  unfold mask_for, grouped_df, mbind, Method_bind. rewrite Hdf.
  unfold lift at 1. rewrite Hgroup. unfold get. rewrite <- Hcfg.
  unfold gdal_Open.
  destruct (filesystem !! image_id_to_path (config self) image_id) as [f |]; [| done].
  simpl. fold (add_polygons rows []).
  by destruct (add_polygons rows []).
Qed.

Lemma mask_for_ret (self s1 : Data) (image_id : string) (mask : ndarray) :
  mask_for image_id self = ret (mask, s1) →
  ∃ view rows f multi_polygon,
    df self = ret (view, s1) ∧ get_group view image_id = ret rows ∧
    filesystem !! image_id_to_path (config self) image_id = Some f ∧
    add_polygons rows [] = ret multi_polygon ∧
    mask = ReadAsArray (burnt (open_file f) multi_polygon).
Proof.
  intros Hmask.
  destruct (df self) as [[view s0] | e] eqn:Hdf;
    [| unfold mask_for, grouped_df, mbind, Method_bind in Hmask;
       by rewrite Hdf in Hmask].
  destruct (get_group view image_id) as [rows | e] eqn:Hgroup.
  - rewrite (mask_for_run _ _ _ _ _ Hdf Hgroup) in Hmask.
    destruct (filesystem !! _) as [f |] eqn:Hfile; [| done].
    destruct (add_polygons rows []) as [mp |] eqn:Hmp; [| done].
    injection Hmask as <- <-. by exists view, rows, f, mp.
  - unfold mask_for, grouped_df, mbind, Method_bind in Hmask.
    rewrite Hdf in Hmask. unfold lift at 1 in Hmask. by rewrite Hgroup in Hmask.
Qed.

Lemma shape_read_image (f : RasterFile) :
  take 2 (shape (read_image f)) = [Pos.to_nat (file_ysize f); Pos.to_nat (file_xsize f)].
Proof. unfold read_image. simpl. by destruct (decide _). Qed.

Lemma shape_mask (src : Dataset) (multi_polygon : list Geometry) :
  shape (ReadAsArray (burnt src multi_polygon)) = [RasterYSize src; RasterXSize src].
Proof. done. Qed.

Lemma get_group_ret (view : list Row) (image_id : string) :
  image_id ∈ ImageId_unique view →
  ∃ rows, get_group view image_id = ret rows ∧
          rows = filter (λ r, ImageId r = image_id) view.
Proof.
  intros Hin. apply elem_of_unique, list_elem_of_fmap in Hin as (r & -> & Hr).
  unfold get_group.
  destruct (filter _ view) as [| r' rows] eqn:Hrows; [| eauto].
  assert (r ∈ filter (λ r', ImageId r' = ImageId r) view) as Hmem
    by (by apply list_elem_of_filter).
  rewrite Hrows in Hmem. by apply not_elem_of_nil in Hmem.
Qed.

End Methods.

(** ** The claims about mask synthesis *)

Section MaskClaims.
Context {imports : Imports} {libs : Collaborators}.

(** C1.  For an image identifier present in the annotation table, whenever
    [mask_for] and [image_for] return, the mask's shape is the first two
    dimensions of the image's shape; and they do return, with that shape
    (rows, columns) of the raster file, as soon as the file can be opened
    and the polygons of the image parse.  No resizing is involved: both
    arrays are the ones handed to [_resize_image] afterwards. *)
Theorem mask_shape_is_image_shape (self s1 : Data) (view : list Row)
    (image_id : string) :
  df self = ret (view, s1) →
  image_id ∈ ImageId_unique view →
  (∀ mask image s2 s3,
     mask_for image_id self = ret (mask, s2) →
     image_for image_id self = ret (image, s3) →
     shape mask = take 2 (shape image)) ∧
  (∀ f,
     filesystem !! image_id_to_path (config self) image_id = Some f →
     Forall (λ r, ImageId r = image_id →
                  is_Some (CreateGeometryFromWkt (PolygonWKT_Geo r))) view →
     ∃ mask image,
       mask_for image_id self = ret (mask, s1) ∧
       image_for image_id self = ret (image, self) ∧
       shape mask = [Pos.to_nat (file_ysize f); Pos.to_nat (file_xsize f)] ∧
       shape mask = take 2 (shape image)).
Proof.
  intros Hdf Hin. split.
  - intros mask image s2 s3 Hmask Himage.
    apply mask_for_ret in Hmask as (view' & rows & f & mp & _ & _ & Hfile & _ & ->).
    apply image_for_ret in Himage as [Hread _].
    unfold imread in Hread. rewrite Hfile in Hread. injection Hread as <-.
    by rewrite shape_mask, shape_read_image.
  - intros f Hfile Hparse.
    destruct (get_group_ret _ _ Hin) as (rows & Hgroup & Hrows).
    destruct (add_polygons_ok rows []) as (gs & Hgs & _).
    { subst rows. apply Forall_forall. intros r [Hid Hr]%list_elem_of_filter.
      rewrite Forall_forall in Hparse. by apply Hparse. }
    exists (ReadAsArray (burnt (open_file f) gs)), (read_image f).
    split; [| split; [| split]].
    + rewrite (mask_for_run _ _ _ _ _ Hdf Hgroup), Hfile. by rewrite Hgs.
    + apply image_for_ret. unfold imread. by rewrite Hfile.
    + done.
    + by rewrite shape_mask, shape_read_image.
Qed.

(** C6 (as amended).  For an image of the table, [mask_for] raises at once,
    without a second attempt, in two cases: when the raster file cannot be
    opened, the attribute read on the [None] that GDAL returned raises
    [AttributeError]; when the file opens and some polygon text of the image
    does not parse, adding the NULL geometry raises [ValueError], whatever
    rows follow.  When the file opens and every polygon parses the mask is
    returned, whether or not the file carries a transform and a projection:
    their absence is not an error. *)
Theorem mask_for_failures (self s1 : Data) (view rows : list Row)
    (image_id : string) :
  df self = ret (view, s1) →
  get_group view image_id = ret rows →
  let path := image_id_to_path (config self) image_id in
  (filesystem !! path = None → mask_for image_id self = raise AttributeError) ∧
  (∀ f, filesystem !! path = Some f →
        (Exists (λ r, CreateGeometryFromWkt (PolygonWKT_Geo r) = None) rows →
         mask_for image_id self = raise ValueError) ∧
        (Forall (λ r, is_Some (CreateGeometryFromWkt (PolygonWKT_Geo r))) rows →
         ∃ mask, mask_for image_id self = ret (mask, s1))).
Proof.
  intros Hdf Hgroup path.
  rewrite (mask_for_run _ _ _ _ _ Hdf Hgroup). fold path. split.
  - by intros ->.
  - intros f ->. split.
    + intros Hbad. by rewrite add_polygons_fail.
    + intros Hok. destruct (add_polygons_ok rows [] Hok) as (gs & -> & _). eauto.
Qed.

End MaskClaims.

Module MaskRuns.
Import Demo.

(** The tile of "img0": three rows of two pixels, three bands. *)
Lemma mask_shape_is_image_shape_run :
  ∃ mask image s1,
    mask_for "img0" (built 16 false) = ret (mask, s1) ∧
    image_for "img0" (built 16 false) = ret (image, built 16 false) ∧
    shape mask = [3; 2]%nat ∧ shape mask = take 2 (shape image).
Proof.
  assert (Hdf : df (built 16 false)
                = ret (table, set__df (Some table) (built 16 false)))
    by (vm_compute; reflexivity).
  assert (Hin : "img0" ∈ ImageId_unique table)
    by (apply (bool_decide_unpack _); vm_compute; exact I).
  destruct (mask_shape_is_image_shape _ _ _ "img0" Hdf Hin) as [_ Hret].
  destruct (Hret (tile true)) as (mask & image & Hmask & Himage & Hshape & Hsame).
  { vm_compute; reflexivity. }
  { apply (bool_decide_unpack _); vm_compute; exact I. }
  exists mask, image, (set__df (Some table) (built 16 false)).
  split; [exact Hmask |]. split; [exact Himage |]. split; [exact Hshape | exact Hsame].
Defined.

(** "lost" has no tile on disk; the second polygon of "torn" is cut short
    and a third one follows it. *)
Lemma mask_for_failures_run :
  mask_for "lost" (built 16 false) = raise AttributeError ∧
  mask_for "torn" (built 16 false) = raise ValueError.
Proof.
  assert (Hdf : df (built 16 false)
                = ret (table, set__df (Some table) (built 16 false)))
    by (vm_compute; reflexivity).
  split.
  - refine (proj1 (mask_for_failures _ _ _ [mkRow 14 "lost" square] "lost" Hdf _) _);
      vm_compute; reflexivity.
  - refine (proj1 (proj2 (mask_for_failures _ _ _
              [mkRow 11 "torn" square; mkRow 12 "torn" "POLYGON ((10 50, 11";
               mkRow 13 "torn" square] "torn" Hdf _) (tile true) _) _).
    + vm_compute; reflexivity.
    + vm_compute; reflexivity.
    + apply (bool_decide_unpack _); vm_compute; exact I.
Defined.

(** C6 fails as stated at a raster without georeferencing: the tile of
    "plain" carries neither a transform nor a projection, its polygon
    parses, and [mask_for] returns a mask instead of raising. *)
Lemma mask_for_without_georeferencing :
  filesystem !! image_id_to_path "data" "plain" = Some (tile false) ∧
  file_geotransform (tile false) = None ∧
  file_projection (tile false) = None ∧
  ∃ mask s1, mask_for "plain" (built 16 false) = ret (mask, s1) ∧
             shape mask = [3; 2]%nat.
Proof.
  split; [vm_compute; reflexivity |]. split; [reflexivity |]. split; [reflexivity |].
  eexists _, _. split; [vm_compute; reflexivity | reflexivity].
Qed.

End MaskRuns.

(** ** Batch assembly *)

Section Samples.
Context {imports : Imports} {libs : Collaborators}.

(** A facade over a given table is left as it is by the methods that
    resolve samples. *)
Lemma df_fixed (self s1 : Data) (table view : list Row) :
  _df self = Some table → df self = ret (view, s1) →
  s1 = self ∧ boolean_index table (_data_filter self table) = ret view.
Proof.
  intros Hcache Hdf. rewrite (df_cached _ _ Hcache) in Hdf.
  apply lift_ret in Hdf as [? ?]. done.
Qed.

Lemma mask_for_fixed (self s1 : Data) (table : list Row) (image_id : string)
    (mask : ndarray) :
  _df self = Some table → mask_for image_id self = ret (mask, s1) → s1 = self.
Proof.
  intros Hcache (view & _ & _ & _ & Hdf & _)%mask_for_ret.
  by destruct (df_fixed _ _ _ _ Hcache Hdf).
Qed.

Lemma to_single_nn_fixed (self s1 : Data) (table : list Row) (shape : nat * nat)
    (image_id : string) (sample : ndarray * ndarray) :
  _df self = Some table →
  _to_single_nn shape image_id self = ret (sample, s1) → s1 = self.
Proof.
  intros Hcache Hrun. unfold _to_single_nn in Hrun.
  apply method_bind_ret in Hrun as (image & s2 & [_ ->]%image_for_ret & Hrun).
  apply method_bind_ret in Hrun as (mask & s3 & Hmask & Hrun).
  apply (mask_for_fixed _ _ _ _ _ Hcache) in Hmask as ->.
  apply method_bind_ret in Hrun as (image' & s4 & [_ ->]%lift_ret & Hrun).
  apply method_bind_ret in Hrun as (mask' & s5 & [_ ->]%lift_ret & Hrun).
  by injection Hrun as _ <-.
Qed.

(** A map of a method that leaves the state alone returns one result per
    element. *)
Lemma method_map_fixed {A B} (f : A → Method B) (xs : list A) (ys : list B)
    (self s1 : Data) :
  (∀ x y s, f x self = ret (y, s) → s = self) →
  method_map f xs self = ret (ys, s1) →
  s1 = self ∧ length ys = length xs.
Proof.
  intros Hfix. revert ys s1.
  induction xs as [| x xs IH]; intros ys s1 Hmap; simpl in Hmap.
  - by injection Hmap as <- <-.
  - apply method_bind_ret in Hmap as (y & s2 & Hy & Hmap).
    apply Hfix in Hy as ->.
    apply method_bind_ret in Hmap as (ys' & s3 & Hys & Hmap).
    apply IH in Hys as [-> Hlen]. injection Hmap as <- <-.
    split; [done |]. simpl. by rewrite Hlen.
Qed.

(** The identifiers a batch facade shows are the batch's identifiers. *)
Lemma batch_view_ids (self : Data) (df : list Row) (aug : bool) (batch_id : Z) :
  ImageId_unique (isin_rows df (batch_image_ids self df aug batch_id))
  = batch_image_ids self df aug batch_id.
Proof. unfold batch_image_ids, slice. apply ImageId_unique_window. Qed.

(** The staged samples of a facade over a given table with the filter
    [ALWAYS_TRUE]: one image and one mask per identifier, followed under
    augmentation by what the augmentation returns for them. *)
Lemma to_nn_samples_ret (self s1 : Data) (table : list Row) (shape : nat * nat)
    (staged : list (list ndarray)) :
  _df self = Some table → _data_filter self = ALWAYS_TRUE →
  to_nn_samples shape self = ret (staged, s1) →
  s1 = self ∧
  ∃ samples,
    length samples = length (ImageId_unique table) ∧
    if augment self then
      ∃ aug_images aug_masks,
        augmentation_run (augmentation self) (samples.*1) (samples.*2)
        = (aug_images, aug_masks) ∧
        staged = [samples.*1 ++ aug_images; samples.*2 ++ aug_masks]
    else staged = list_unzip samples.
Proof.
  intros Hcache Hfilter Hrun. unfold to_nn_samples in Hrun.
  apply method_bind_ret in Hrun as (view & s2 & Hdf & Hrun).
  apply (df_fixed _ _ _ _ Hcache) in Hdf as [-> Hview].
  rewrite Hfilter, boolean_index_ALWAYS_TRUE in Hview. injection Hview as <-.
  apply method_bind_ret in Hrun as (samples & s3 & Hmap & Hrun).
  apply method_map_fixed in Hmap as [-> Hlen];
    [| intros x y s; apply (to_single_nn_fixed _ _ _ _ _ _ Hcache)].
  apply method_bind_ret in Hrun as (me & s4 & [= <- <-] & Hrun).
  apply lift_ret in Hrun as [Hstaged ->]. split; [done |].
  exists samples. split; [done |].
  destruct (augment self); [| by injection Hstaged].
  unfold _augment_nn in Hstaged.
  apply result_bind_ret in Hstaged as ([images masks] & Hpair & Hstaged).
  destruct samples as [| sample samples]; [discriminate |].
  injection Hpair as <- <-.
  destruct (augmentation_run _ _ _) as [aug_images aug_masks].
  injection Hstaged as <-. eauto.
Qed.

Lemma np_array_len (xs : list ndarray) (a : ndarray) :
  np_array xs = ret a → len a = length xs.
Proof.
  unfold np_array. destruct xs as [| x xs]; [by intros [= <-] |].
  destruct (decide _); [by intros [= <-] | done].
Qed.

Lemma newaxis4_len (a b : ndarray) : newaxis4 a = ret b → len b = len a.
Proof.
  unfold newaxis4, len. destruct (decide _) as [Hdim |]; [| done].
  intros [= <-]. simpl. by destruct (shape a).
Qed.

(** The arrays [to_nn] returns have one entry per staged sample. *)
Lemma to_nn_ret (self s1 : Data) (shape : nat * nat) (scale_pixels : bool)
    (images masks : ndarray) :
  to_nn shape scale_pixels self = ret ((images, masks), s1) →
  ∃ staged_images staged_masks,
    to_nn_samples shape self = ret ([staged_images; staged_masks], s1) ∧
    len images = length staged_images ∧ len masks = length staged_masks.
Proof.
  intros Hrun. unfold to_nn in Hrun.
  apply method_bind_ret in Hrun as (staged & s2 & Hstaged & Hrun).
  apply method_bind_ret in Hrun as (arrays & s3 & [Harrays ->]%lift_ret & Hrun).
  apply method_bind_ret in Hrun as (arrays' & s4 & [Hscaled ->]%lift_ret & Hrun).
  apply lift_ret in Hrun as [Hout ->].
  unfold _reshape_output in Hout.
  destruct arrays' as [| a1 [| a2 [| ? ?]]]; try discriminate.
  simpl in Hout.
  apply result_bind_ret in Hout as (outputs' & Haxis & Hout).
  injection Hout as Himages Hmasks. subst images masks.
  assert (∃ a0, arrays = [a0; a2] ∧ len a0 = len a1) as (a0 & -> & Hlen0).
  { destruct scale_pixels.
    - destruct arrays as [| a0 rest]; [discriminate |].
      injection Hscaled as <- <-. eauto.
    - injection Hscaled as ->. eauto. }
  destruct staged as [| l1 [| l2 [| ? ?]]]; simpl in Harrays;
    try discriminate.
  - apply result_bind_ret in Harrays as (? & _ & Harrays). discriminate.
  - apply result_bind_ret in Harrays as (b1 & Hb1 & Harrays).
    apply result_bind_ret in Harrays as (bs & Hbs & Harrays).
    apply result_bind_ret in Hbs as (b2 & Hb2 & Hbs).
    injection Hbs as <-. injection Harrays as Heq1 Heq2. subst b1 b2.
    exists l1, l2. split; [done |].
    rewrite <- Hlen0, (np_array_len _ _ Hb1).
    by rewrite (newaxis4_len _ _ Haxis), (np_array_len _ _ Hb2).
  - apply result_bind_ret in Harrays as (b1 & Hb1 & Harrays).
    apply result_bind_ret in Harrays as (bs & Hbs & Harrays).
    apply result_bind_ret in Hbs as (b2 & Hb2 & Hbs).
    apply result_bind_ret in Hbs as (bs' & Hbs' & Hbs).
    apply result_bind_ret in Hbs' as (b3 & _ & Hbs').
    apply result_bind_ret in Hbs' as (bs'' & _ & Hbs').
    injection Hbs' as <-. injection Hbs as <-. discriminate.
Qed.

(** Stacking needs samples: on a facade that shows no identifier, [to_nn]
    without augmentation and scaling raises at the unpacking in
    [_reshape_output]. *)
Lemma to_nn_of_no_identifier (self : Data) (shape : nat * nat) :
  _df self = Some [] → _data_filter self = ALWAYS_TRUE → augment self = false →
  to_nn shape false self = raise ValueError.
Proof.
  intros Hcache Hfilter Hflag.
  unfold to_nn, to_nn_samples, mbind, Method_bind.
  rewrite (df_cached _ _ Hcache), Hfilter. simpl. by rewrite Hflag.
Qed.

Lemma np_array_stackable (dims : nat) (xs : list ndarray) :
  xs ≠ [] → stackable dims xs →
  ∃ a, np_array xs = ret a ∧ length (shape a) = S dims.
Proof.
  intros Hne (s & Hdims & Hall). destruct xs as [| x xs]; [done |].
  unfold np_array. apply Forall_cons in Hall as [Hx Hxs].
  destruct (decide _) as [_ | Hno].
  - eexists. split; [done |]. simpl. by rewrite Hx, Hdims.
  - exfalso. apply Hno. rewrite Hx. by constructor.
Qed.

(** Staged samples that can be stacked are stacked: [to_nn] returns. *)
Lemma to_nn_of_staged (self s1 : Data) (shape : nat * nat) (scale_pixels : bool)
    (dims : nat) (staged_images staged_masks : list ndarray) :
  to_nn_samples shape self = ret ([staged_images; staged_masks], s1) →
  staged_images ≠ [] → staged_masks ≠ [] →
  stackable dims staged_images → stackable 2 staged_masks →
  ∃ images masks, to_nn shape scale_pixels self = ret ((images, masks), s1).
Proof.
  intros Hstaged Hni Hnm Hi Hm.
  destruct (np_array_stackable _ _ Hni Hi) as (a & Ha & _).
  destruct (np_array_stackable _ _ Hnm Hm) as (b & Hb & Hdim).
  unfold to_nn. rewrite (method_bind_run _ _ _ _ _ Hstaged).
  unfold mbind at 1, Method_bind at 1, lift at 1. simpl. rewrite Ha. simpl.
  rewrite Hb. simpl.
  assert (∃ b', newaxis4 b = ret b') as (b' & Hb').
  { unfold newaxis4. destruct (decide _); [eauto | done]. }
  destruct scale_pixels; simpl;
    unfold mbind, Method_bind, lift, _reshape_output; simpl;
    rewrite Hb'; simpl; eauto.
Qed.

(** The staged samples of a facade over a given table with the filter
    [ALWAYS_TRUE], from the samples of its identifiers. *)
Lemma to_nn_samples_run (self : Data) (table : list Row) (shape : nat * nat)
    (samples : list (ndarray * ndarray)) :
  _df self = Some table → _data_filter self = ALWAYS_TRUE →
  method_map (_to_single_nn shape) (ImageId_unique table) self = ret (samples, self) →
  samples ≠ [] →
  to_nn_samples shape self
  = ret (if augment self then
           [samples.*1 ++ (augmentation_run (augmentation self) (samples.*1) (samples.*2)).1;
            samples.*2 ++ (augmentation_run (augmentation self) (samples.*1) (samples.*2)).2]
         else [samples.*1; samples.*2], self).
Proof.
  intros Hcache Hfilter Hmap Hne. unfold to_nn_samples.
  assert (Hdf : df self = ret (table, self)).
  { rewrite (df_cached _ _ Hcache), Hfilter, boolean_index_ALWAYS_TRUE. done. }
  rewrite (method_bind_run _ _ _ _ _ Hdf), (method_bind_run _ _ _ _ _ Hmap).
  unfold mbind, Method_bind, this, lift. simpl.
  destruct samples as [| sample samples]; [done |].
  destruct (augment self); [| done].
  unfold _augment_nn. simpl. by destruct (augmentation_run _ _ _).
Qed.

(** The train partition is resolved without touching the settings. *)
Lemma or_train_df_ret (self s1 : Data) (df : option (list Row)) (part : list Row) :
  or_train_df df self = ret (part, s1) → same_settings self s1.
Proof.
  unfold or_train_df. destruct df as [d |].
  - intros [= <- <-]. by repeat split.
  - intros Hs. apply method_bind_ret in Hs as (s & s2 & Hsplit & [= <- <-]).
    by apply split_data_ret in Hsplit as [? _].
Qed.

End Samples.

(** ** The claims about batch assembly *)

Section AssemblyClaims.
Context {imports : Imports} {libs : Collaborators}.

(** What [train_batch_data] returns once the train partition is known. *)
Lemma train_batch_data_run (self s1 : Data) (df : option (list Row))
    (part : list Row) (batch_id : Z) :
  or_train_df df self = ret (part, s1) →
  train_batch_data batch_id df self
  = lift (_batch_data s1 part (augment s1) batch_id) s1.
Proof.
  intros Hpart. unfold train_batch_data.
  rewrite (method_bind_run _ _ _ _ _ Hpart). done.
Qed.

(** The number of samples a batch facade stages per identifier list. *)
Lemma batch_facade_samples (self sub s2 : Data) (df : list Row) (aug : bool)
    (batch_id : Z) (shape : nat * nat) (staged : list (list ndarray)) :
  _batch_data self df aug batch_id = ret sub →
  to_nn_samples shape sub = ret (staged, s2) →
  s2 = sub ∧
  ∃ samples,
    length samples = length (batch_image_ids self df aug batch_id) ∧
    if aug then
      ∃ aug_images aug_masks,
        augmentation_run (mkAugmentation MOVE_SCALE_ROTATE None)
          (samples.*1) (samples.*2) = (aug_images, aug_masks) ∧
        staged = [samples.*1 ++ aug_images; samples.*2 ++ aug_masks]
    else staged = list_unzip samples.
Proof.
  rewrite batch_data_value. intros [= <-] Hstaged.
  eapply to_nn_samples_ret in Hstaged as [-> (samples & Hlen & Hst)];
    [| reflexivity | reflexivity].
  split; [done |]. exists samples. split; [| exact Hst].
  by rewrite Hlen, batch_view_ids.
Qed.



End AssemblyClaims.

Module AssemblyRuns.
Import Demo.



End AssemblyRuns.

(** ** The filter and the caches *)

Section FilterClaims.
Context {imports : Imports} {libs : Collaborators}.

(** Setting the filter empties the split cache, so that the next access
    splits the newly filtered table; the cached identifier array is not
    touched, and the next [image_ids] returns it unchanged, whatever the new
    filter hides. *)
Lemma filter_setter_caches (self : Data) (flt : DataFilter) (ids : list string) :
  _image_ids self = IdArray ids →
  ∃ s1, data_filter_setter flt self = ret (tt, s1) ∧
        _data_filter s1 = flt ∧
        _split_data s1 = None ∧
        image_ids s1 = ret (ids, s1).
Proof.
  intros Hids. eexists. split; [apply data_filter_setter_ret |].
  split; [done |]. split; [done |].
  unfold image_ids, get, mbind, Method_bind. simpl. by rewrite Hids.
Qed.

End FilterClaims.

Module FilterRuns.
Import Demo.

(** C7, evaluated.  On the facade of the installation, after [image_ids]
    and the split have been read, the filter is set to hide "img1".  The
    split is recomputed and no longer has "img1", and neither have the
    visible identifiers of [df]; [image_ids] still returns the list computed
    before the filter was set, with "img1" in it. *)
Theorem image_ids_stale_after_filter :
  ∃ ids_before train_before ids_after visible_after train_after s,
    filter_session (built 16 false)
    = ret ((ids_before, train_before, ids_after, visible_after, train_after), s) ∧
    ("img1" ∈ train_before) ∧ ("img1" ∉ train_after) ∧
    ("img1" ∉ visible_after) ∧
    ids_after = ids_before ∧ ("img1" ∈ ids_after) ∧
    ids_after ≠ visible_after.
Proof.
  do 6 eexists. split; [vm_compute; reflexivity |].
  repeat split; try (apply (bool_decide_unpack _); vm_compute; exact I).
Qed.

End FilterRuns.

(** ** The table, the filter and the caches *)

Section Views.
Context {imports : Imports} {libs : Collaborators}.

Lemma select_rows_sublist (table : list Row) (mask : list bool) :
  select_rows table mask `sublist_of` table.
Proof.
  revert mask. induction table as [| r table IH]; intros mask; [done |].
  destruct mask as [| [] mask]; simpl.
  - apply sublist_nil_l.
  - by apply sublist_skip.
  - by apply sublist_cons.
Qed.

Lemma boolean_index_ret (table view : list Row) (mask : list bool) :
  boolean_index table mask = ret view →
  view = select_rows table mask ∧ length mask = length table.
Proof.
  unfold boolean_index. destruct (decide _); [| done]. by intros [= <-].
Qed.

(** X1.  [df] after [df]: the object holds the table, which was either there or
    loaded by this read, and the next read returns the same view and assigns
    nothing. *)
Theorem df_reads_table_once (self s1 : Data) (view : list Row) :
  df self = ret (view, s1) →
  (∃ table, _df s1 = Some table ∧
            (_df self = Some table ∨
             (_df self = None ∧ load_table (config self) = ret table))) ∧
  df s1 = ret (view, s1).
Proof.
  intros (table & Hfrom & -> & Hview)%df_ret. split; [by exists table |].
  rewrite (df_cached _ table) by done. simpl. by rewrite Hview.
Qed.

(** X3.  [reset_filter]: whatever filter was set, the next [df] is the whole
    table, and the split cache is empty. *)
Theorem reset_filter_shows_table (self : Data) (table : list Row) :
  _df self = Some table →
  ∃ s1, reset_filter self = ret (tt, s1) ∧
        df s1 = ret (table, s1) ∧
        _data_filter s1 = ALWAYS_TRUE ∧ _split_data s1 = None.
Proof.
  intros Hcache. eexists. split; [apply data_filter_setter_ret |].
  split; [| done].
  rewrite (df_cached _ table) by done. simpl.
  by rewrite boolean_index_ALWAYS_TRUE.
Qed.

(** X4.  A view never shows what the table has not: its rows are rows of the
    table in the table's order, and its identifiers are identifiers of the
    table, each listed once. *)
Theorem view_within_table (self s1 : Data) (view : list Row) :
  df self = ret (view, s1) →
  ∃ table, _df s1 = Some table ∧
           view `sublist_of` table ∧
           (∀ id, id ∈ ImageId_unique view → id ∈ ImageId_unique table) ∧
           NoDup (ImageId_unique view).
Proof.
  intros (table & _ & -> & Hview)%df_ret.
  apply boolean_index_ret in Hview as [-> _].
  exists table. split; [done |]. split; [apply select_rows_sublist |].
  split; [| apply NoDup_unique].
  intros id (r & -> & Hr)%elem_of_unique%list_elem_of_fmap.
  apply elem_of_unique, list_elem_of_fmap. exists r. split; [done |].
  eapply elem_of_sublist; [exact Hr | apply select_rows_sublist].
Qed.

(** X5.  After the filter is set, the next [split_data] splits the rows the new
    filter shows, whatever split was cached before, and keeps that split for
    the reads that follow. *)
Theorem split_follows_filter (self : Data) (table view : list Row)
    (flt : DataFilter) :
  _df self = Some table →
  boolean_index table (flt table) = ret view →
  ∃ s1 s2,
    data_filter_setter flt self = ret (tt, s1) ∧
    split_data s1 = ret (GroupDataSplit view "ImageId" (split_config self), s2) ∧
    split_data s2 = ret (GroupDataSplit view "ImageId" (split_config self), s2).
Proof.
  intros Hcache Hview. do 2 eexists.
  split; [apply data_filter_setter_ret |].
  set (s1 := set__split_data None (set__data_filter flt self)).
  assert (Hdf : df s1 = ret (view, s1)).
  { rewrite (df_cached _ table) by done. simpl. by rewrite Hview. }
  split.
  - unfold split_data, get, mbind at 1, Method_bind at 1. simpl.
    rewrite (method_bind_run _ _ _ _ _ Hdf). reflexivity.
  - reflexivity.
Qed.

(** X6.  The first read of [image_ids] lists every identifier the view shows
    once, and the reads that follow return that list. *)
Theorem image_ids_lists_view (self s1 : Data) (ids : list string) :
  _image_ids self = EmptyList →
  image_ids self = ret (ids, s1) →
  ∃ view s0,
    df self = ret (view, s0) ∧
    ids = ImageId_unique view ∧ NoDup ids ∧
    (∀ id, id ∈ ids ↔ ∃ r, r ∈ view ∧ ImageId r = id) ∧
    image_ids s1 = ret (ids, s1).
Proof.
  intros Hempty Hids. unfold image_ids, get, mbind at 1, Method_bind at 1 in Hids.
  simpl in Hids. rewrite Hempty in Hids.
  apply method_bind_ret in Hids as (view & s0 & Hdf & Hids).
  injection Hids as <- <-.
  exists view, s0. split; [done |]. split; [done |].
  split; [apply NoDup_unique |]. split.
  - intros id. unfold ImageId_unique. rewrite elem_of_unique, list_elem_of_fmap.
    split; intros (r & ? & ?); eauto.
  - reflexivity.
Qed.


End Views.

(** ** Masks, pixel by pixel *)

Section Masks.
Context {imports : Imports} {libs : Collaborators}.

(** What the polygon loop returns: the geometries of the rows, in row
    order, after what it was given. *)
Lemma add_polygons_ret (rows : list Row) (acc res : list Geometry) :
  add_polygons rows acc = ret res →
  ∃ gs, res = acc ++ gs ∧
        Some <$> gs = (λ r, CreateGeometryFromWkt (PolygonWKT_Geo r)) <$> rows.
Proof.
  revert acc. induction rows as [| r rows IH]; intros acc Hrun.
  - injection Hrun as <-. exists []. by rewrite app_nil_r.
  - unfold add_polygons in *. simpl in Hrun.
    destruct (CreateGeometryFromWkt (PolygonWKT_Geo r)) as [g |] eqn:Hg; [| done].
    apply IH in Hrun as (gs & -> & Hgs).
    exists (g :: gs). split; [by rewrite <- app_assoc |].
    rewrite !fmap_cons, Hg. by f_equal.
Qed.

(** Row-major reading of a grid. *)
Lemma lookup_grid {A} (g : nat → nat → A) (rows cols first row col : nat) :
  (row < rows)%nat → (col < cols)%nat →
  (r ← seq first rows; g r <$> seq 0 cols) !! (row * cols + col)%nat
  = Some (g (first + row)%nat col).
Proof.
  revert first row. induction rows as [| rows IH]; intros first row Hrow Hcol; [lia |].
  rewrite <- cons_seq, bind_cons.
  destruct row as [| row].
  - rewrite lookup_app_l by (rewrite length_fmap, length_seq; lia).
    rewrite list_lookup_fmap, lookup_seq_lt by lia. simpl. do 2 f_equal. lia.
  - rewrite lookup_app_r by (rewrite length_fmap, length_seq; lia).
    rewrite length_fmap, length_seq.
    replace (S row * cols + col - cols)%nat with (row * cols + col)%nat by lia.
    rewrite IH by lia. do 2 f_equal. lia.
Qed.

Lemma length_grid {A} (g : nat → nat → A) (rows cols first : nat) :
  length (r ← seq first rows; g r <$> seq 0 cols) = (rows * cols)%nat.
Proof.
  revert first. induction rows as [| rows IH]; intros first; [done |].
  rewrite <- cons_seq, bind_cons, length_app, IH, length_fmap, length_seq. lia.
Qed.

(** X7.  An identifier the view does not show has no group: [mask_for] raises
    [KeyError] before any file is opened, whatever is on disk. *)
Theorem mask_for_unknown_id (self s1 : Data) (view : list Row) (image_id : string) :
  df self = ret (view, s1) →
  image_id ∉ ImageId_unique view →
  mask_for image_id self = raise KeyError.
Proof.
  intros Hdf Hout. unfold mask_for, grouped_df.
  rewrite (method_bind_run _ _ _ _ _ Hdf).
  unfold mbind, Method_bind, lift at 1, get_group.
  destruct (filter _ view) as [| r rows] eqn:Hrows; [done |].
  exfalso. apply Hout, elem_of_unique, list_elem_of_fmap. exists r.
  assert (r ∈ filter (λ r, ImageId r = image_id) view) as [? ?]%list_elem_of_filter
    by (rewrite Hrows; by left).
  done.
Qed.

(** X8.  A mask that was returned is returned again: the second call finds the
    table cached and yields the same array. *)
Theorem mask_for_repeatable (self s1 : Data) (image_id : string) (mask : ndarray) :
  mask_for image_id self = ret (mask, s1) →
  mask_for image_id s1 = ret (mask, s1).
Proof.
  intros (view & rows & f & mp & Hdf & Hgroup & Hfile & Hmp & ->)%mask_for_ret.
  destruct (df_same_settings _ _ _ Hdf) as [(Hcfg & _) _].
  destruct (df_ret _ _ _ Hdf) as (table & _ & Hs1 & Hview).
  assert (Hagain : df s1 = ret (view, s1)).
  { rewrite (df_cached _ table) by (by rewrite Hs1). rewrite Hs1. simpl.
    by rewrite Hview. }
  rewrite (mask_for_run _ _ _ _ _ Hagain Hgroup), <- Hcfg, Hfile. by rewrite Hmp.
Qed.

(** X9.  The mask, pixel by pixel.  It has one entry per pixel of the raster
    file, in row-major order; the entry is 1 where the polygons of the rows
    of this image, parsed in row order and placed with the file's transform
    and projection (GDAL's defaults when the file has none), cover the pixel,
    and 0 elsewhere.  Rows of other images play no part, and there is always
    at least one polygon: an image without rows has no group and no mask. *)
Theorem mask_for_pixels (self s1 : Data) (image_id : string) (mask : ndarray) :
  mask_for image_id self = ret (mask, s1) →
  ∃ view f polygons,
    df self = ret (view, s1) ∧
    filesystem !! image_id_to_path (config self) image_id = Some f ∧
    Some <$> polygons
    = (λ r, CreateGeometryFromWkt (PolygonWKT_Geo r))
        <$> filter (λ r, ImageId r = image_id) view ∧
    polygons ≠ [] ∧
    let rows := Pos.to_nat (file_ysize f) in
    let cols := Pos.to_nat (file_xsize f) in
    let transform := default default_geotransform (file_geotransform f) in
    let projection := default EmptyString (file_projection f) in
    length (flat mask) = (rows * cols)%nat ∧
    ∀ row col, (row < rows)%nat → (col < cols)%nat →
      flat mask !! (row * cols + col)%nat
      = Some (if covers transform projection [polygons] row col then 1%Q else 0%Q).
Proof.
  intros (view & rows & f & mp & Hdf & Hgroup & Hfile & Hmp & ->)%mask_for_ret.
  apply add_polygons_ret in Hmp as (gs & -> & Hgs). simpl in Hgs.
  assert (Hrows : rows = filter (λ r, ImageId r = image_id) view ∧ rows ≠ []).
  { unfold get_group in Hgroup.
    destruct (filter _ view); [done |]. by injection Hgroup as <-. }
  destruct Hrows as [Hrows Hne].
  exists view, f, gs. split; [done |]. split; [done |]. split.
  { by rewrite Hgs, Hrows. }
  split.
  { intros ->. destruct rows; [done | discriminate]. }
  split; [apply length_grid |].
  intros row col Hrow Hcol. unfold ReadAsArray. simpl.
  rewrite (lookup_grid (λ row col, inject_Z _)) by done. simpl.
  by destruct (covers _ _ _ _ _).
Qed.

(** X10.  The image is read first: for a raster that is not on disk
    [_to_single_nn] raises the loader's [OSError], whether or not the
    identifier is in the table. *)
Theorem to_single_nn_without_file (self : Data) (shape : nat * nat)
    (image_id : string) :
  filesystem !! image_id_to_path (config self) image_id = None →
  _to_single_nn shape image_id self = raise OSError.
Proof.
  intros Hfile. unfold _to_single_nn, image_for, get, imread.
  unfold mbind, Method_bind, lift. simpl. by rewrite Hfile.
Qed.

End Masks.

(** ** Batches: rows, bounds and counts *)

Section Batches.
Context {imports : Imports} {libs : Collaborators}.

(** Selecting the rows of some identifiers keeps every row of each of them. *)
Lemma rows_of_member (df : list Row) (ids : list string) (id : string) :
  id ∈ ids →
  filter (λ r, ImageId r = id) (isin_rows df ids) = filter (λ r, ImageId r = id) df.
Proof.
  intros Hid. unfold isin_rows. induction df as [| r df IH]; [done |].
  destruct (decide (ImageId r = id)) as [Hr | Hr].
  - rewrite (filter_cons_True (λ r, ImageId r ∈ ids)) by (by rewrite Hr).
    rewrite !(filter_cons_True (λ r, ImageId r = id)) by done. by rewrite IH.
  - rewrite (filter_cons_False (λ r, ImageId r = id) r df) by done.
    destruct (decide (ImageId r ∈ ids)).
    + rewrite (filter_cons_True (λ r, ImageId r ∈ ids)) by done.
      by rewrite filter_cons_False.
    + by rewrite (filter_cons_False (λ r, ImageId r ∈ ids)) by done.
Qed.

(** What [mask_for] comes to, once the view is known. *)
Lemma mask_for_outcome (self s1 : Data) (view : list Row) (image_id : string) :
  df self = ret (view, s1) →
  outcome (mask_for image_id self)
  = (rows ← get_group view image_id;
     match filesystem !! image_id_to_path (config self) image_id with
     | None => raise AttributeError
     | Some f =>
         multi_polygon ← add_polygons rows [];
         ret (ReadAsArray (burnt (open_file f) multi_polygon))
     end).
Proof.
  intros Hdf. destruct (get_group view image_id) as [rows | e] eqn:Hgroup.
  - rewrite (mask_for_run _ _ _ _ _ Hdf Hgroup). simpl.
    destruct (filesystem !! _); [| done]. by destruct (add_polygons rows []).
  - unfold mask_for, grouped_df. rewrite (method_bind_run _ _ _ _ _ Hdf).
    unfold mbind, Method_bind, lift at 1. by rewrite Hgroup.
Qed.

(** X11.  A batch facade is as good as the whole partition for its identifiers:
    it holds every row the partition has for each of them, so [mask_for]
    and [image_for] come to the same mask, image or exception on it as on
    a facade over the whole partition with the same [config]. *)
Theorem batch_facade_masks (self whole sub : Data) (df : list Row) (aug : bool)
    (batch_id : Z) (image_id : string) :
  _batch_data self df aug batch_id = ret sub →
  image_id ∈ batch_image_ids self df aug batch_id →
  _df whole = Some df → _data_filter whole = ALWAYS_TRUE →
  config whole = config self →
  get_group (isin_rows df (batch_image_ids self df aug batch_id)) image_id
  = get_group df image_id ∧
  outcome (mask_for image_id sub) = outcome (mask_for image_id whole) ∧
  outcome (image_for image_id sub) = outcome (image_for image_id whole).
Proof.
  intros Hsub Hid Hcache Hfilter Hcfg.
  rewrite batch_data_value in Hsub. injection Hsub as <-.
  set (ids := batch_image_ids self df aug batch_id) in *.
  assert (Hgroup : get_group (isin_rows df ids) image_id = get_group df image_id).
  { unfold get_group. by rewrite rows_of_member. }
  split; [done |]. split.
  - erewrite !mask_for_outcome.
    + rewrite Hgroup, Hcfg. reflexivity.
    + rewrite (df_cached _ df) by done. rewrite Hfilter, boolean_index_ALWAYS_TRUE.
      reflexivity.
    + rewrite (df_cached _ (isin_rows df ids)) by done. simpl.
      rewrite boolean_index_ALWAYS_TRUE. reflexivity.
  - unfold image_for, get, mbind, Method_bind, lift. simpl. rewrite Hcfg.
    by destruct (imread _).
Qed.



End Batches.

(** ** [to_nn]: what is stacked, scaled and refused *)

Section Stacking.
Context {imports : Imports} {libs : Collaborators}.

(** The stages of [to_nn_samples], for any facade: the view is read first,
    and the samples are resolved on the object that holds the table. *)
Lemma to_nn_samples_view (self s2 : Data) (shape : nat * nat)
    (staged : list (list ndarray)) :
  to_nn_samples shape self = ret (staged, s2) →
  ∃ view samples,
    df self = ret (view, s2) ∧
    method_map (_to_single_nn shape) (ImageId_unique view) s2 = ret (samples, s2) ∧
    length samples = length (ImageId_unique view) ∧
    (if augment self then _augment_nn s2 (list_unzip samples)
     else ret (list_unzip samples)) = ret staged.
Proof.
  intros Hrun. unfold to_nn_samples in Hrun.
  apply method_bind_ret in Hrun as (view & s1 & Hdf & Hrun).
  destruct (df_same_settings _ _ _ Hdf) as [(_ & _ & _ & Hflag & _) _].
  destruct (df_ret _ _ _ Hdf) as (table & _ & Hs1 & _).
  assert (Hcache : _df s1 = Some table) by (by rewrite Hs1).
  apply method_bind_ret in Hrun as (samples & s3 & Hmap & Hrun).
  pose proof Hmap as Hfixed.
  apply method_map_fixed in Hfixed as [-> Hlen];
    [| intros x y s; apply (to_single_nn_fixed _ _ _ _ _ _ Hcache)].
  apply method_bind_ret in Hrun as (me & s4 & [= <- <-] & Hrun).
  apply lift_ret in Hrun as [Hstaged ->].
  exists view, samples. rewrite Hflag. done.
Qed.

(** [to_nn] from its staged samples, and back. *)
Lemma to_nn_run (self s1 : Data) (shape : nat * nat) (scale_pixels : bool)
    (staged_images staged_masks : list ndarray) (a b masks : ndarray) :
  to_nn_samples shape self = ret ([staged_images; staged_masks], s1) →
  np_array staged_images = ret a → np_array staged_masks = ret b →
  newaxis4 b = ret masks →
  to_nn shape scale_pixels self
  = ret ((if scale_pixels then div255 a else a, masks), s1).
Proof.
  intros Hstaged Ha Hb Hmasks. unfold to_nn.
  rewrite (method_bind_run _ _ _ _ _ Hstaged).
  unfold mbind at 1, Method_bind at 1, lift at 1. simpl. rewrite Ha. simpl.
  rewrite Hb. simpl.
  destruct scale_pixels; simpl;
    unfold mbind, Method_bind, lift, _reshape_output; simpl;
    by rewrite Hmasks.
Qed.

Lemma to_nn_inv (self s1 : Data) (shape : nat * nat) (scale_pixels : bool)
    (images masks : ndarray) :
  to_nn shape scale_pixels self = ret ((images, masks), s1) →
  ∃ staged_images staged_masks a b,
    to_nn_samples shape self = ret ([staged_images; staged_masks], s1) ∧
    np_array staged_images = ret a ∧ np_array staged_masks = ret b ∧
    images = (if scale_pixels then div255 a else a) ∧
    newaxis4 b = ret masks.
Proof.
  intros Hrun. unfold to_nn in Hrun.
  apply method_bind_ret in Hrun as (staged & s2 & Hstaged & Hrun).
  apply method_bind_ret in Hrun as (arrays & s3 & [Harrays ->]%lift_ret & Hrun).
  apply method_bind_ret in Hrun as (arrays' & s4 & [Hscaled ->]%lift_ret & Hrun).
  apply lift_ret in Hrun as [Hout ->].
  unfold _reshape_output in Hout.
  destruct arrays' as [| a1 [| a2 [| ? ?]]]; try discriminate.
  simpl in Hout.
  apply result_bind_ret in Hout as (outputs' & Haxis & Hout).
  injection Hout as Himages Hmasks. subst images masks.
  assert (∃ a0, arrays = [a0; a2] ∧ a1 = if scale_pixels then div255 a0 else a0)
    as (a0 & -> & Ha1).
  { destruct scale_pixels.
    - destruct arrays as [| a0 rest]; [discriminate |].
      injection Hscaled as <- <-. eauto.
    - injection Hscaled as ->. eauto. }
  destruct staged as [| l1 [| l2 [| ? ?]]]; simpl in Harrays;
    try discriminate.
  - apply result_bind_ret in Harrays as (? & _ & Harrays). discriminate.
  - apply result_bind_ret in Harrays as (b1 & Hb1 & Harrays).
    apply result_bind_ret in Harrays as (bs & Hbs & Harrays).
    apply result_bind_ret in Hbs as (b2 & Hb2 & Hbs).
    injection Hbs as <-. injection Harrays as Heq1 Heq2. subst b1 b2.
    by exists l1, l2, a0, a2.
  - apply result_bind_ret in Harrays as (b1 & Hb1 & Harrays).
    apply result_bind_ret in Harrays as (bs & Hbs & Harrays).
    apply result_bind_ret in Hbs as (b2 & Hb2 & Hbs).
    apply result_bind_ret in Hbs as (bs' & Hbs' & Hbs).
    apply result_bind_ret in Hbs' as (b3 & _ & Hbs').
    apply result_bind_ret in Hbs' as (bs'' & _ & Hbs').
    injection Hbs' as <-. injection Hbs as <-. discriminate.
Qed.

(** X14.  [scale_pixels] touches the images only: the scaled call returns the
    masks of the unscaled one and its images divided by 255, entry by
    entry, in the same shape. *)
Theorem scale_pixels_divides_images (self s1 : Data) (size : nat * nat)
    (images masks : ndarray) :
  to_nn size false self = ret ((images, masks), s1) →
  ∃ scaled,
    to_nn size true self = ret ((scaled, masks), s1) ∧
    shape scaled = shape images ∧
    flat scaled = (λ x, x / 255)%Q <$> flat images.
Proof.
  intros (li & lm & a & b & Hstaged & Ha & Hb & -> & Hmasks)%to_nn_inv.
  exists (div255 a). split; [| done].
  apply (to_nn_run _ _ _ true _ _ _ _ _ Hstaged Ha Hb Hmasks).
Qed.

Lemma np_array_shape (xs : list ndarray) (x b : ndarray) :
  np_array (x :: xs) = ret b → shape b = S (length xs) :: shape x.
Proof. unfold np_array. destruct (decide _); [| done]. by intros [= <-]. Qed.

Lemma list_unzip_pair (samples : list (ndarray * ndarray))
    (staged_images staged_masks : list ndarray) :
  list_unzip samples = [staged_images; staged_masks] →
  samples ≠ [] ∧ staged_images = samples.*1 ∧ staged_masks = samples.*2.
Proof. destruct samples; [done |]. by intros [= <- <-]. Qed.

(** X15.  Without augmentation [to_nn] returns one image and one mask per
    identifier of the view, and the masks carry a trailing axis of size
    one after their two pixel axes. *)
Theorem to_nn_one_sample_per_id (self s1 : Data) (size : nat * nat)
    (scale_pixels : bool) (images masks : ndarray) :
  augment self = false →
  to_nn size scale_pixels self = ret ((images, masks), s1) →
  ∃ view height width,
    df self = ret (view, s1) ∧
    len images = length (ImageId_unique view) ∧
    shape masks = [length (ImageId_unique view); height; width; 1%nat].
Proof.
  intros Hflag (li & lm & a & b & Hstaged & Ha & Hb & -> & Hmasks)%to_nn_inv.
  apply to_nn_samples_view in Hstaged as (view & samples & Hdf & _ & Hlen & Hst).
  rewrite Hflag in Hst. injection Hst as Hst.
  apply list_unzip_pair in Hst as (Hne & -> & ->).
  unfold newaxis4 in Hmasks. destruct (decide _) as [Hdim |]; [| done].
  injection Hmasks as <-.
  pose proof (np_array_len _ _ Ha) as Hla. rewrite length_fmap, Hlen in Hla.
  destruct samples as [| sample samples]; [done |].
  rewrite fmap_cons in Hb. apply np_array_shape in Hb.
  rewrite Hb in Hdim. simpl in Hdim.
  destruct (shape sample.2) as [| height [| width [| ? ?]]] eqn:Hs;
    try discriminate.
  exists view, height, width. split; [done |]. split.
  - by destruct scale_pixels.
  - simpl. rewrite Hb, length_fmap. simpl in Hlen. by rewrite <- Hlen.
Qed.

(** X16.  A view without rows cannot be stacked: [to_nn] raises, at the unpacking
    in [_augment_nn] under augmentation, at the first array when pixels are
    to be scaled, at the unpacking in [_reshape_output] otherwise. *)
Theorem to_nn_of_empty_view (self s1 : Data) (shape : nat * nat)
    (scale_pixels : bool) :
  df self = ret ([], s1) →
  to_nn shape scale_pixels self
  = raise (if augment self then ValueError
           else if scale_pixels then IndexError else ValueError).
Proof.
  intros Hdf.
  destruct (df_same_settings _ _ _ Hdf) as [(_ & _ & _ & Hflag & _) _].
  unfold to_nn, to_nn_samples.
  unfold mbind at 1, Method_bind at 1.
  rewrite (method_bind_run _ _ _ _ _ Hdf).
  unfold mbind, Method_bind, this, lift. simpl. rewrite <- Hflag.
  destruct (augment self); [done |]. by destruct scale_pixels.
Qed.

(** A map of a method that leaves the state alone raises as soon as one
    element raises. *)
Lemma method_map_raise {A B} (f : A → Method B) (xs : list A) (x : A)
    (self : Data) (e : PyError) :
  (∀ x y s, f x self = ret (y, s) → s = self) →
  x ∈ xs → f x self = raise e →
  ∃ e', method_map f xs self = raise e'.
Proof.
  intros Hfix Hin Hraise. induction xs as [| x0 xs IH]; [by apply elem_of_nil in Hin |].
  simpl. unfold mbind at 1, Method_bind at 1.
  destruct (f x0 self) as [[y s] | e0] eqn:Hx0; [| eauto].
  apply Hfix in Hx0 as Hs. subst s.
  apply elem_of_cons in Hin as [-> | Hin]; [congruence |].
  destruct (IH Hin) as (e' & He'). exists e'.
  unfold mbind, Method_bind. by rewrite He'.
Qed.

(** X17.  All or nothing: if the sample of one identifier of the view cannot be
    resolved, [to_nn] returns no array at all but raises. *)
Theorem to_nn_all_or_nothing (self s1 : Data) (view : list Row)
    (shape : nat * nat) (scale_pixels : bool) (image_id : string) (e : PyError) :
  df self = ret (view, s1) →
  image_id ∈ ImageId_unique view →
  _to_single_nn shape image_id s1 = raise e →
  ∃ e', to_nn shape scale_pixels self = raise e'.
Proof.
  intros Hdf Hin Hraise.
  destruct (df_ret _ _ _ Hdf) as (table & _ & Hs1 & _).
  assert (Hcache : _df s1 = Some table) by (by rewrite Hs1).
  destruct (method_map_raise (_to_single_nn shape) _ _ s1 e
              (λ x y s, to_single_nn_fixed _ _ _ _ _ _ Hcache) Hin Hraise)
    as (e' & He').
  exists e'. unfold to_nn, to_nn_samples.
  unfold mbind at 1, Method_bind at 1.
  rewrite (method_bind_run _ _ _ _ _ Hdf).
  unfold mbind at 1, Method_bind at 1. by rewrite He'.
Qed.

End Stacking.

(** ** Generators and the green mask *)

Section Accessories.
Context {imports : Imports} {libs : Collaborators}.

(** X18.  The train generator works on the table it read when its accessors were
    made.  On any later state of the facade with the same batch size and
    flag, whatever filter, table or split cache that state holds, [data_f]
    cuts its batch from that table and [len_f] counts that table, and
    neither assigns anything.  (The validation and test accessors are the
    bound methods, which read the split of the moment.) *)
Theorem train_generator_keeps_its_table (self s1 : Data) (len_f : Method Z)
    (data_f : Z → Method Data) :
  train_params self = ret ((len_f, data_f), s1) →
  ∃ s, split_data self = ret (s, s1) ∧
    ∀ later batch_id,
      batch_size later = batch_size self → augment later = augment self →
      len_f later = lift (_batch_count self (train_df s) (augment self)) later ∧
      ∃ sub,
        data_f batch_id later = ret (sub, later) ∧
        augment sub = augment self ∧
        _df sub = Some (isin_rows (train_df s)
                          (batch_image_ids self (train_df s) (augment self) batch_id)).
Proof.
  intros Hparams. unfold train_params in Hparams.
  apply method_bind_ret in Hparams as (s & s0 & Hsplit & Hparams).
  injection Hparams as <- <- <-.
  exists s. split; [done |].
  intros later batch_id Hsize Hflag. split.
  - unfold train_batch_count, or_train_df, this, mbind, Method_bind, mret, Method_ret.
    rewrite Hflag. unfold _batch_count, effective_batch_size. by rewrite Hsize.
  - eexists. split.
    + unfold train_batch_data, or_train_df, this, mbind, Method_bind, mret, Method_ret.
      rewrite batch_data_value. reflexivity.
    + simpl. split; [done |]. rewrite Hflag.
      unfold batch_image_ids, effective_batch_size. by rewrite Hsize.
Qed.

(** Three layers of one entry per pixel, laid pixel by pixel. *)
Lemma green_cells (pre l : list Q) (total : nat) :
  total = (length pre + length l)%nat →
  (cell ← seq (length pre) (length l);
   b ← [mkArray [] (replicate total 0%Q); mkArray [] (pre ++ l);
        mkArray [] (replicate total 0%Q)];
   take 1 (drop (cell * 1) (flat b)))
  = (v ← l; [0%Q; v; 0%Q]).
Proof.
  revert pre. induction l as [| x l IH]; intros pre Htotal; [done |].
  cbn [length] in *. rewrite <- cons_seq, !bind_cons.
  replace (pre ++ x :: l) with ((pre ++ [x]) ++ l) by (by rewrite <- app_assoc).
  specialize (IH (pre ++ [x])). rewrite length_app, Nat.add_1_r in IH.
  rewrite IH by lia. cbn [flat]. f_equal.
  rewrite Nat.mul_1_r, drop_replicate, <- app_assoc, drop_app_length.
  replace (total - length pre)%nat with (S (length l)) by lia.
  done.
Qed.

Lemma dstack_green (rows cols : nat) (l : list Q) :
  length l = (rows * cols)%nat →
  np_dstack [np_zeros [rows; cols]; mkArray [rows; cols] l; np_zeros [rows; cols]]
  = ret (mkArray [rows; cols; 3%nat] (v ← l; [0%Q; v; 0%Q])).
Proof.
  intros Hlen. unfold np_dstack. simpl.
  destruct (decide _) as [_ | Hno]; [| exfalso; apply Hno; by repeat constructor].
  f_equal. f_equal. unfold positions, depth_entries. simpl.
  replace (rows * (cols * 1))%nat with (length l) by lia.
  rewrite <- (green_cells [] l (length l)) by done.
  done.
Qed.

(** X19.  The green mask of an image: as many rows and columns as the mask and
    three channels, the mask in the middle one and zeros in the other two.
    It is returned whenever the mask is. *)
Theorem green_mask_for_channels (self s1 : Data) (image_id : string)
    (mask : ndarray) :
  mask_for image_id self = ret (mask, s1) →
  green_mask_for image_id self
  = ret (mkArray (shape mask ++ [3%nat]) (v ← flat mask; [0%Q; v; 0%Q]), s1).
Proof.
  intros Hmask. unfold green_mask_for.
  rewrite (method_bind_run _ _ _ _ _ Hmask).
  apply mask_for_ret in Hmask as (_ & _ & f & mp & _ & _ & _ & _ & ->).
  unfold ReadAsArray. simpl shape.
  rewrite dstack_green by apply length_grid. done.
Qed.

End Accessories.

Module MoreRuns.
Import Demo.

(** The second read of the table. *)
Lemma df_reads_table_once_run : df loaded = ret (table, loaded).
Proof.
  refine (proj2 (df_reads_table_once (built 16 false) _ table _)).
  vm_compute; reflexivity.
Defined.


(** A reset after the filter that hides "img1". *)
Lemma reset_filter_shows_table_run :
  ∃ s1, reset_filter (set__data_filter without_img1 loaded) = ret (tt, s1) ∧
        df s1 = ret (table, s1).
Proof.
  destruct (reset_filter_shows_table (set__data_filter without_img1 loaded) table)
    as (s1 & Hreset & Hdf & _); [reflexivity |].
  exists s1. split; [exact Hreset | exact Hdf].
Defined.

(** The view under the filter that hides "img1". *)
Lemma view_within_table_run :
  ∃ view s1, df (set__data_filter without_img1 loaded) = ret (view, s1) ∧
             view `sublist_of` table.
Proof.
  assert (Hdf : df (set__data_filter without_img1 loaded)
                = ret (select_rows table (without_img1 table),
                       set__data_filter without_img1 loaded))
    by (vm_compute; reflexivity).
  destruct (view_within_table _ _ _ Hdf) as (t & Ht & Hsub & _).
  injection Ht as <-. eauto.
Defined.

(** The split after the filter that hides "img1". *)
Lemma split_follows_filter_run :
  ∃ s1 s2,
    data_filter_setter without_img1 loaded = ret (tt, s1) ∧
    split_data s1
    = ret (GroupDataSplit (select_rows table (without_img1 table)) "ImageId" tt, s2).
Proof.
  destruct (split_follows_filter loaded table
              (select_rows table (without_img1 table)) without_img1)
    as (s1 & s2 & Hset & Hsplit & _); [reflexivity | vm_compute; reflexivity |].
  exists s1, s2. split; [exact Hset | exact Hsplit].
Defined.

(** The first read of [image_ids]. *)
Lemma image_ids_lists_view_run :
  ∃ ids s1, image_ids (built 16 false) = ret (ids, s1) ∧ NoDup ids.
Proof.
  assert (Hids : image_ids (built 16 false)
                 = ret (ImageId_unique table,
                        set__image_ids (IdArray (ImageId_unique table)) loaded))
    by (vm_compute; reflexivity).
  destruct (image_ids_lists_view (built 16 false) _ _ eq_refl Hids) as (_ & _ & _ & _ & Hnd & _).
  eauto.
Defined.

(** An identifier that is in no row. *)
Lemma mask_for_unknown_id_run : mask_for "img9" loaded = raise KeyError.
Proof.
  refine (mask_for_unknown_id loaded loaded table "img9" _ _).
  - vm_compute; reflexivity.
  - apply (bool_decide_unpack _); vm_compute; exact I.
Defined.

(** The mask of "img0", twice. *)
Lemma mask_for_repeatable_run :
  ∃ mask s1, mask_for "img0" (built 16 false) = ret (mask, s1) ∧
             mask_for "img0" s1 = ret (mask, s1).
Proof.
  assert (∃ mask s1, mask_for "img0" (built 16 false) = ret (mask, s1))
    as (mask & s1 & Hmask) by (vm_compute; eauto).
  exists mask, s1. split; [exact Hmask | exact (mask_for_repeatable _ _ _ _ Hmask)].
Defined.

(** The six pixels of the mask of "img0". *)
Lemma mask_for_pixels_run :
  ∃ mask s1, mask_for "img0" (built 16 false) = ret (mask, s1) ∧
             length (flat mask) = 6%nat.
Proof.
  assert (∃ mask s1, mask_for "img0" (built 16 false) = ret (mask, s1))
    as (mask & s1 & Hmask) by (vm_compute; eauto).
  destruct (mask_for_pixels _ _ _ _ Hmask) as (view & f & gs & _ & Hf & _ & _ & Hlen & _).
  vm_compute in Hf. injection Hf as <-.
  exists mask, s1. split; [exact Hmask | exact Hlen].
Defined.

(** "lost" is in the table and has no tile. *)
Lemma to_single_nn_without_file_run :
  _to_single_nn (4, 5)%nat "lost" loaded = raise OSError.
Proof. apply to_single_nn_without_file. vm_compute; reflexivity. Defined.

(** "img1", with its two rows, in the first training batch. *)
Lemma batch_facade_masks_run :
  ∃ sub, _batch_data (built 16 true) (isin_rows table tile_ids) true 0 = ret sub ∧
         outcome (mask_for "img1" sub) = outcome (mask_for "img1" tiles).
Proof.
  assert (∃ sub, _batch_data (built 16 true) (isin_rows table tile_ids) true 0 = ret sub)
    as (sub & Hsub) by (vm_compute; eauto).
  destruct (batch_facade_masks (built 16 true) tiles sub _ true 0 "img1" Hsub)
    as (_ & Hmask & _); try reflexivity.
  { apply (bool_decide_unpack _); vm_compute; exact I. }
  exists sub. split; [exact Hsub | exact Hmask].
Defined.



(** The eight tiles, scaled and not. *)
Lemma scale_pixels_divides_images_run :
  ∃ images scaled masks s1,
    to_nn (4, 5)%nat false tiles = ret ((images, masks), s1) ∧
    to_nn (4, 5)%nat true tiles = ret ((scaled, masks), s1) ∧
    flat scaled = (λ x, x / 255)%Q <$> flat images.
Proof.
  assert (∃ images masks s1, to_nn (4, 5)%nat false tiles = ret ((images, masks), s1))
    as (images & masks & s1 & Hnn) by (vm_compute; eauto).
  destruct (scale_pixels_divides_images _ _ _ _ _ Hnn) as (scaled & Hscaled & _ & Hflat).
  exists images, scaled, masks, s1. split; [exact Hnn |]. split; [exact Hscaled | exact Hflat].
Defined.

(** The eight tiles, without augmentation. *)
Lemma to_nn_one_sample_per_id_run :
  ∃ images masks s1 height width,
    to_nn (4, 5)%nat false tiles = ret ((images, masks), s1) ∧
    len images = 8%nat ∧ shape masks = [8; height; width; 1]%nat.
Proof.
  assert (∃ images masks s1, to_nn (4, 5)%nat false tiles = ret ((images, masks), s1))
    as (images & masks & s1 & Hnn) by (vm_compute; eauto).
  destruct (to_nn_one_sample_per_id tiles _ _ _ _ _ eq_refl Hnn)
    as (view & height & width & Hdf & Hlen & Hshape).
  vm_compute in Hdf. injection Hdf as Hview _. subst view.
  exists images, masks, s1, height, width.
  split; [exact Hnn |]. split; [exact Hlen | exact Hshape].
Defined.

(** A facade over a table without rows. *)
Lemma to_nn_of_empty_view_run :
  to_nn (4, 5)%nat true (set__df (Some []) (built 16 false)) = raise IndexError.
Proof.
  apply (to_nn_of_empty_view (set__df (Some []) (built 16 false))
           (set__df (Some []) (built 16 false)) (4, 5)%nat true).
  reflexivity.
Defined.

(** The whole table holds "torn", whose second polygon does not parse. *)
Lemma to_nn_all_or_nothing_run : ∃ e, to_nn (4, 5)%nat false loaded = raise e.
Proof.
  refine (to_nn_all_or_nothing loaded loaded table (4, 5)%nat false "torn" ValueError _ _ _).
  - vm_compute; reflexivity.
  - apply (bool_decide_unpack _); vm_compute; exact I.
  - vm_compute; reflexivity.
Defined.

(** The train accessors, used after the filter has been set to hide
    "img1": the batch still comes from the table read before. *)
Lemma train_generator_keeps_its_table_run :
  ∃ len_f data_f sub,
    train_params (built 16 true) = ret ((len_f, data_f), resolved (built 16 true)) ∧
    data_f 0 (set__data_filter without_img1 (resolved (built 16 true)))
    = ret (sub, set__data_filter without_img1 (resolved (built 16 true))) ∧
    augment sub = true.
Proof.
  assert (Hsplit : split_data (built 16 true)
                   = ret (GroupDataSplit table "ImageId" tt, resolved (built 16 true)))
    by (vm_compute; reflexivity).
  assert (Hparams : train_params (built 16 true)
                    = ret ((train_batch_count (Some (isin_rows table tile_ids)),
                            λ batch_id,
                              train_batch_data batch_id (Some (isin_rows table tile_ids))),
                           resolved (built 16 true)))
    by (unfold train_params; rewrite (method_bind_run _ _ _ _ _ Hsplit); reflexivity).
  destruct (train_generator_keeps_its_table _ _ _ _ Hparams) as (s & _ & Hlater).
  destruct (Hlater (set__data_filter without_img1 (resolved (built 16 true))) 0)
    as (_ & sub & Hdata & Hflag & _); [reflexivity | reflexivity |].
  eexists _, _, sub. split; [exact Hparams |]. split; [exact Hdata | exact Hflag].
Defined.

(** The green mask of "img0". *)
Lemma green_mask_for_channels_run :
  ∃ green s1, green_mask_for "img0" (built 16 false) = ret (green, s1) ∧
              shape green = [3; 2; 3]%nat.
Proof.
  assert (∃ mask s1, mask_for "img0" (built 16 false) = ret (mask, s1))
    as (mask & s1 & Hmask) by (vm_compute; eauto).
  pose proof (green_mask_for_channels _ _ _ _ Hmask) as Hgreen.
  eexists _, s1. split; [exact Hgreen |].
  apply mask_for_ret in Hmask as (_ & _ & f & mp & _ & _ & Hf & _ & Hmask).
  vm_compute in Hf. injection Hf as Hf. subst f. rewrite Hmask. reflexivity.
Defined.

End MoreRuns.
